(** * CreateProjectModal: validation, description text and submission

    A shallow embedding of the logic of
    [src/components/modals/CreateProjectModal.tsx]: the two zod schemas,
    the description text built by the two submit handlers, and the order
    of the calls the handlers make to the project store, to the session
    lookup and to the [external_references] table.

    Strings are [string]; a character stands for a UTF-16 code unit below
    256.  The handlers are written in a small monad that carries the
    trace of observable events and can throw, so that they read like the
    TypeScript they come from. *)

From Stdlib Require Import List String Ascii ZArith Lia Bool.
From Stdlib Require Import Numbers.DecimalString Numbers.DecimalPos.
Import ListNotations.

Open Scope list_scope.
Open Scope string_scope.

(* ================================================================= *)
(** ** JavaScript string primitives used by the component *)

Module JS.

(** [WhiteSpace] and [LineTerminator] code units below 256: TAB, LF, VT,
    FF, CR, SP and NBSP.  These are what [String.prototype.trim] strips. *)
Definition is_whitespace (c : ascii) : bool :=
  let n := nat_of_ascii c in
  (Nat.leb 9 n && Nat.leb n 13) || Nat.eqb n 32 || Nat.eqb n 160.

Fixpoint trimStart (s : string) : string :=
  match s with
  | EmptyString => EmptyString
  | String c s' => if is_whitespace c then trimStart s' else s
  end.

Fixpoint trimEnd (s : string) : string :=
  match s with
  | EmptyString => EmptyString
  | String c s' =>
      match trimEnd s' with
      | EmptyString => if is_whitespace c then EmptyString else String c EmptyString
      | t => String c t
      end
  end.

(** [s.trim()] *)
Definition trim (s : string) : string := trimEnd (trimStart s).

(** [s.split(sep)] for a one-character separator.  The result is never
    empty: the empty string splits to one empty token. *)
Fixpoint split (sep : ascii) (s : string) : list string :=
  match s with
  | EmptyString => [EmptyString]
  | String c s' =>
      if Ascii.eqb c sep then EmptyString :: split sep s'
      else match split sep s' with
           | [] => [String c EmptyString]
           | t :: ts => String c t :: ts
           end
  end.

(** Truthiness of a string: every string but the empty one. *)
Definition truthy (s : string) : bool :=
  match s with EmptyString => false | String _ _ => true end.

(** Truthiness of a possibly [undefined] string. *)
Definition truthy_opt (s : option string) : bool :=
  match s with Some t => truthy t | None => false end.

(** A template substitution of a possibly [undefined] string, used only
    under the matching truthiness test. *)
Definition text (s : option string) : string :=
  match s with Some t => t | None => "undefined" end.

(** Numbers as the year input produces them: [parseInt] yields an
    integer or [NaN]. *)
Inductive number : Type :=
| NaN
| Num (z : Z).

(** Template substitution of an integer: its decimal digits, with a
    minus sign when negative. *)
Definition number_to_string (z : Z) : string :=
  NilZero.string_of_int (Z.to_int z).

(** Truthiness of a possibly [undefined] integer: defined and not 0. *)
Definition truthy_num (y : option Z) : bool :=
  match y with Some z => negb (Z.eqb z 0) | None => false end.

(** Value of a digit character: [0-9], [a-z] and [A-Z] count from 0 to
    35, and only values below the radix are digits. *)
Definition digit_value (radix : Z) (c : ascii) : option Z :=
  let n := Z.of_nat (nat_of_ascii c) in
  let v := if Z.leb 48 n && Z.leb n 57 then Some (n - 48)%Z
           else if Z.leb 97 n && Z.leb n 122 then Some (n - 87)%Z
           else if Z.leb 65 n && Z.leb n 90 then Some (n - 55)%Z
           else None in
  match v with
  | Some d => if Z.ltb d radix then Some d else None
  | None => None
  end.

(** The value of the longest prefix of [s] made of digits, read after
    the digits that gave [acc]; [seen] tells whether a digit was read.
    No digit at all gives [None]. *)
Fixpoint parse_digits (radix : Z) (s : string) (acc : Z) (seen : bool)
  : option Z :=
  match s with
  | EmptyString => if seen then Some acc else None
  | String c s' =>
      match digit_value radix c with
      | Some d => parse_digits radix s' (acc * radix + d)%Z true
      | None => if seen then Some acc else None
      end
  end.

(** The sign of [parseInt]: a leading ["-"] or ["+"] is removed. *)
Definition strip_sign (s : string) : Z * string :=
  match s with
  | String c s' =>
      if Ascii.eqb c "-" then ((-1)%Z, s')
      else if Ascii.eqb c "+" then (1%Z, s')
      else (1%Z, s)
  | EmptyString => (1%Z, s)
  end.

(** The radix of [parseInt] called without one: 16 after a ["0x"] or
    ["0X"] prefix, which is removed, and 10 otherwise. *)
Definition strip_prefix (s : string) : Z * string :=
  match s with
  | String c (String x s') =>
      if Ascii.eqb c "0" && (Ascii.eqb x "x" || Ascii.eqb x "X")
      then (16%Z, s')
      else (10%Z, s)
  | _ => (10%Z, s)
  end.

(** [parseInt(input)].  The result is kept as an exact integer, which is
    what JavaScript computes up to 2^53 in absolute value; [-0] is 0. *)
Definition parseInt (input : string) : number :=
  let (sign, s) := strip_sign (trimStart input) in
  let (radix, s) := strip_prefix s in
  match parse_digits radix s 0 false with
  | Some v => Num (sign * v)
  | None => NaN
  end.

End JS.

(** Line feed, the ["\n"] of the source. *)
Definition LF : string := String (ascii_of_nat 10) EmptyString.

(* ================================================================= *)
(** ** Dates *)

(** The only thing the component reads from a [Date] is its month name,
    through date-fns' [format(date, 'MMMM')].  A valid [Date] is
    represented by its month. *)
Inductive Month : Type :=
| January | February | March | April | May | June
| July | August | September | October | November | December.

Definition Date : Type := Month.

(** [format(d, 'MMMM')]: the full English month name. *)
Definition format_MMMM (d : Date) : string :=
  match d with
  | January => "January" | February => "February" | March => "March"
  | April => "April" | May => "May" | June => "June"
  | July => "July" | August => "August" | September => "September"
  | October => "October" | November => "November" | December => "December"
  end.

(* ================================================================= *)
(** ** The year input *)

(** The [onChange] of both year inputs:
    [e.target.value ? parseInt(e.target.value) : undefined]. *)
Definition yearOnChange (value : string) : option JS.number :=
  if JS.truthy value then Some (JS.parseInt value) else None.

(* ================================================================= *)
(** ** The zod schemas *)

(** What a schema reports about one field. *)
Inductive Issue : Type :=
| Message (message : string)  (** the message given to [.min(1, { message })] *)
| Required                    (** a mandatory field is [undefined] *)
| NotANumber                  (** [z.number()] received [NaN] *)
| TooSmall (minimum : Z)      (** [.min(minimum)] on a number *)
| TooBig (maximum : Z).       (** [.max(maximum)] on a number *)

Definition FieldErrors : Type := list (string * Issue).

(** Result of parsing one field: the typed value, or its issues. *)
Definition Parsed (A : Type) : Type := (A + list Issue)%type.

Module Zod.

(** [z.string().min(minimum, { message })]: the length counts every
    code unit, whitespace included. *)
Definition string_min (minimum : nat) (message : string)
           (v : option string) : Parsed string :=
  match v with
  | None => inr [Required]
  | Some s => if Nat.leb minimum (String.length s) then inl s
              else inr [Message message]
  end.

(** [z.string().optional()] *)
Definition string_optional (v : option string) : Parsed (option string) :=
  inl v.

(** [z.date().optional()] on a valid [Date] or [undefined]. *)
Definition date_optional (v : option Date) : Parsed (option Date) :=
  inl v.

(** [z.number().min(minimum).max(maximum).optional()]: both bounds are
    checked and every failed check is reported. *)
Definition number_min_max_optional (minimum maximum : Z)
           (v : option JS.number) : Parsed (option Z) :=
  match v with
  | None => inl None
  | Some JS.NaN => inr [NotANumber]
  | Some (JS.Num z) =>
      match ((if Z.ltb z minimum then [TooSmall minimum] else [])
             ++ (if Z.ltb maximum z then [TooBig maximum] else []))%list with
      | [] => inl (Some z)
      | issues => inr issues
      end
  end.

(** The issues of one field, tagged with the field's name. *)
Definition issues {A : Type} (path : string) (p : Parsed A) : FieldErrors :=
  match p with
  | inl _ => []
  | inr l => map (fun i => (path, i)) l
  end.

(** Result of [schema.safeParse]. *)
Inductive SafeParse (A : Type) : Type :=
| Success (data : A)
| Failure (errors : FieldErrors).

Arguments Success {A} data.
Arguments Failure {A} errors.

End Zod.

(** The first issue recorded for a field, as the form shows it. *)
Fixpoint error_of (path : string) (errors : FieldErrors) : option Issue :=
  match errors with
  | [] => None
  | (p, i) :: rest => if String.eqb p path then Some i else error_of path rest
  end.

(** *** Personal project *)

Module Personal.

(** The values the form hands to the resolver. *)
Record RawValues : Type := mkRaw {
  raw_name : option string;
  raw_month : option Date;
  raw_year : option JS.number;
  raw_duration : option string;
  raw_field : option string;
  raw_coAuthors : option string;
  raw_externalLinks : option string
}.

(** [PersonalProjectFormValues] *)
Record FormValues : Type := mkValues {
  name : string;
  month : option Date;
  year : option Z;
  duration : option string;
  field : string;
  coAuthors : option string;
  externalLinks : option string
}.

(** [personalProjectSchema] *)
Definition personalProjectSchema (raw : RawValues) : Zod.SafeParse FormValues :=
  let p_name := Zod.string_min 1 "Project name is required" (raw_name raw) in
  let p_month := Zod.date_optional (raw_month raw) in
  let p_year := Zod.number_min_max_optional 1900 2100 (raw_year raw) in
  let p_duration := Zod.string_optional (raw_duration raw) in
  let p_field := Zod.string_min 1 "Field is required" (raw_field raw) in
  let p_coAuthors := Zod.string_optional (raw_coAuthors raw) in
  let p_externalLinks := Zod.string_optional (raw_externalLinks raw) in
  match p_name, p_month, p_year, p_duration, p_field, p_coAuthors,
        p_externalLinks with
  | inl n, inl m, inl y, inl d, inl f, inl c, inl l =>
      Zod.Success (mkValues n m y d f c l)
  | _, _, _, _, _, _, _ =>
      Zod.Failure (Zod.issues "name" p_name ++ Zod.issues "month" p_month
                   ++ Zod.issues "year" p_year
                   ++ Zod.issues "duration" p_duration
                   ++ Zod.issues "field" p_field
                   ++ Zod.issues "coAuthors" p_coAuthors
                   ++ Zod.issues "externalLinks" p_externalLinks)%list
  end.

(** The form's [defaultValues]. *)
Definition defaultValues : RawValues :=
  mkRaw (Some "") None None (Some "") (Some "") (Some "") (Some "").

(** The [description] variable of [onSubmitPersonal] just before
    [addProject] is called (not yet trimmed). *)
Definition description (values : FormValues) : string :=
  let description := "" in
  let description :=
    if JS.truthy (field values)
    then description ++ "Field: " ++ field values ++ LF
    else description in
  let description :=
    match month values with
    | Some m =>
        let description := description ++ "Date: " ++ format_MMMM m in
        let description :=
          match year values with
          | Some y => if JS.truthy_num (Some y)
                      then description ++ " " ++ JS.number_to_string y
                      else description
          | None => description
          end in
        description ++ LF
    | None =>
        match year values with
        | Some y => if JS.truthy_num (Some y)
                    then description ++ "Year: " ++ JS.number_to_string y ++ LF
                    else description
        | None => description
        end
    end in
  let description :=
    if JS.truthy_opt (duration values)
    then description ++ "Duration: " ++ JS.text (duration values) ++ LF
    else description in
  let description :=
    if JS.truthy_opt (coAuthors values)
    then description ++ "Co-authors: " ++ JS.text (coAuthors values) ++ LF
    else description in
  let description :=
    if JS.truthy_opt (externalLinks values)
    then description ++ "External Links: " ++ JS.text (externalLinks values) ++ LF
    else description in
  description.

End Personal.

(** *** External reference *)

Module External.

Record RawValues : Type := mkRaw {
  raw_name : option string;
  raw_month : option Date;
  raw_year : option JS.number;
  raw_duration : option string;
  raw_field : option string;
  raw_authors : option string;
  raw_externalLinks : option string
}.

(** [ExternalReferenceFormValues] *)
Record FormValues : Type := mkValues {
  name : string;
  month : option Date;
  year : option Z;
  duration : option string;
  field : string;
  authors : option string;
  externalLinks : string
}.

(** [externalReferenceSchema] *)
Definition externalReferenceSchema (raw : RawValues) : Zod.SafeParse FormValues :=
  let p_name := Zod.string_min 1 "Reference name is required" (raw_name raw) in
  let p_month := Zod.date_optional (raw_month raw) in
  let p_year := Zod.number_min_max_optional 1900 2100 (raw_year raw) in
  let p_duration := Zod.string_optional (raw_duration raw) in
  let p_field := Zod.string_min 1 "Field is required" (raw_field raw) in
  let p_authors := Zod.string_optional (raw_authors raw) in
  let p_externalLinks :=
    Zod.string_min 1 "At least one external link is required"
                   (raw_externalLinks raw) in
  match p_name, p_month, p_year, p_duration, p_field, p_authors,
        p_externalLinks with
  | inl n, inl m, inl y, inl d, inl f, inl a, inl l =>
      Zod.Success (mkValues n m y d f a l)
  | _, _, _, _, _, _, _ =>
      Zod.Failure (Zod.issues "name" p_name ++ Zod.issues "month" p_month
                   ++ Zod.issues "year" p_year
                   ++ Zod.issues "duration" p_duration
                   ++ Zod.issues "field" p_field
                   ++ Zod.issues "authors" p_authors
                   ++ Zod.issues "externalLinks" p_externalLinks)%list
  end.

(** The form's [defaultValues]. *)
Definition defaultValues : RawValues :=
  mkRaw (Some "") None None (Some "") (Some "") (Some "") (Some "").

(** The [description] variable of [onSubmitExternal] just before
    [addProject] is called (not yet trimmed).  [externalLinks] is not
    read here. *)
Definition description (values : FormValues) : string :=
  let description := "External Reference" ++ LF in
  let description :=
    if JS.truthy (field values)
    then description ++ "Field: " ++ field values ++ LF
    else description in
  let description :=
    match month values with
    | Some m =>
        let description := description ++ "Date: " ++ format_MMMM m in
        let description :=
          match year values with
          | Some y => if JS.truthy_num (Some y)
                      then description ++ " " ++ JS.number_to_string y
                      else description
          | None => description
          end in
        description ++ LF
    | None =>
        match year values with
        | Some y => if JS.truthy_num (Some y)
                    then description ++ "Year: " ++ JS.number_to_string y ++ LF
                    else description
        | None => description
        end
    end in
  let description :=
    if JS.truthy_opt (duration values)
    then description ++ "Duration: " ++ JS.text (duration values) ++ LF
    else description in
  let description :=
    if JS.truthy_opt (authors values)
    then description ++ "Authors: " ++ JS.text (authors values) ++ LF
    else description in
  description.

End External.

(* ================================================================= *)
(** ** The collaborators and what a submission can be seen to do *)

(** An error value raised or returned by a collaborator; the component
    never looks inside it. *)
Definition Err : Type := string.

Record User : Type := { id : string }.
Record Session : Type := { user : User }.

(** One observable step of a submit handler, in the order of the source. *)
Inductive Event : Type :=
| EvAddProject (name description : string)
    (** [addProject({ name, description })] *)
| EvGetSession
    (** [supabase.auth.getSession()] *)
| EvInsert (url project_name user_id : string)
    (** [supabase.from('external_references').insert({ url, project_name, user_id })] *)
| EvToastSuccess (message : string)
| EvToastError (message : string)
| EvConsoleError (message : string) (error : Err)
| EvSetOpen (open : bool)
| EvPersonalFormReset
| EvExternalFormReset.

(** How the collaborators answer.  [addProject] either resolves or
    rejects with an error; [getSession] resolves with a session or with
    [null]; an insert resolves with [{ error }], where [error] is [null]
    on success.  The answer to an insert may depend on how many inserts
    came before it (numbered from 0) and on the row. *)
Record Backend : Type := {
  addProject_reply : string -> string -> option Err;
  getSession_reply : option Session;
  insert_reply : nat -> string -> string -> string -> option Err
}.

(** The trace so far and the number of inserts issued so far. *)
Record World : Type := mkWorld {
  trace : list Event;
  inserts : nat
}.

Inductive Completion (A : Type) : Type :=
| Normal (a : A)
| Throw (e : Err).

Arguments Normal {A} a.
Arguments Throw {A} e.

(** An [async] computation: it steps the world and completes normally
    or throws. *)
Definition Async (A : Type) : Type := World -> Completion A * World.

Definition ret {A : Type} (a : A) : Async A := fun w => (Normal a, w).

Definition bind {A B : Type} (c : Async A) (k : A -> Async B) : Async B :=
  fun w =>
    match c w with
    | (Normal a, w') => k a w'
    | (Throw e, w') => (Throw e, w')
    end.

Notation "x <- c ;; k" := (bind c (fun x => k))
  (at level 61, c at next level, right associativity).
Notation "c ;; k" := (bind c (fun _ => k))
  (at level 61, right associativity).

(** [try { body } catch (error) { handler error }] *)
Definition try_catch (body : Async unit) (handler : Err -> Async unit) : Async unit :=
  fun w =>
    match body w with
    | (Normal a, w') => (Normal a, w')
    | (Throw e, w') => handler e w'
    end.

Notation "'try' body 'catch' handler" := (try_catch body handler)
  (at level 62, body at level 61, handler at level 61).

(** [for (const x of xs) { body x }] *)
Fixpoint for_of {A : Type} (xs : list A) (body : A -> Async unit) : Async unit :=
  match xs with
  | [] => ret tt
  | x :: rest => body x ;; for_of rest body
  end.

Definition emit (e : Event) : Async unit :=
  fun w => (Normal tt, mkWorld (trace w ++ [e])%list (inserts w)).

Definition toast_success (message : string) : Async unit :=
  emit (EvToastSuccess message).
Definition toast_error (message : string) : Async unit :=
  emit (EvToastError message).
Definition console_error (message : string) (error : Err) : Async unit :=
  emit (EvConsoleError message error).
Definition setOpen (open : bool) : Async unit := emit (EvSetOpen open).
Definition personalForm_reset : Async unit := emit EvPersonalFormReset.
Definition externalForm_reset : Async unit := emit EvExternalFormReset.

Section Handlers.

Variable backend : Backend.

(** [await addProject({ name, description })] *)
Definition addProject (name description : string) : Async unit :=
  fun w =>
    let w' := mkWorld (trace w ++ [EvAddProject name description])%list (inserts w) in
    match addProject_reply backend name description with
    | None => (Normal tt, w')
    | Some e => (Throw e, w')
    end.

(** [const { data: { session } } = await supabase.auth.getSession()] *)
Definition getSession : Async (option Session) :=
  fun w =>
    (Normal (getSession_reply backend),
     mkWorld (trace w ++ [EvGetSession])%list (inserts w)).

(** [const { error } = await supabase.from('external_references').insert(row)] *)
Definition insert (url project_name user_id : string) : Async (option Err) :=
  fun w =>
    (Normal (insert_reply backend (inserts w) url project_name user_id),
     mkWorld (trace w ++ [EvInsert url project_name user_id])%list
             (S (inserts w))).

Definition onSubmitPersonal (values : Personal.FormValues) : Async unit :=
  try (
    let description := Personal.description values in
    addProject (Personal.name values) (JS.trim description) ;;
    toast_success "Project created successfully!" ;;
    setOpen false ;;
    personalForm_reset
  ) catch (fun error =>
    console_error "Error creating project:" error ;;
    toast_error "Failed to create project"
  ).

Definition onSubmitExternal (values : External.FormValues) : Async unit :=
  try (
    let description := External.description values in
    addProject (External.name values) (JS.trim description) ;;
    session <- getSession ;;
    match session with
    | None =>
        toast_error "You must be logged in to add external references"
    | Some session =>
        let links := map JS.trim (JS.split "," (External.externalLinks values)) in
        for_of links (fun url =>
          if JS.truthy url then
            error <- insert url (External.name values) (id (user session)) ;;
            match error with
            | Some error =>
                console_error "Error adding external reference:" error ;;
                toast_error "Failed to add external reference"
            | None => ret tt
            end
          else ret tt) ;;
        toast_success "External reference created successfully!" ;;
        setOpen false ;;
        externalForm_reset
    end
  ) catch (fun error =>
    console_error "Error creating external reference:" error ;;
    toast_error "Failed to create external reference"
  ).

(** What one run of a handler does, from a fresh world. *)
Definition run (h : Async unit) : list Event :=
  trace (snd (h (mkWorld [] 0))).

(** [personalForm.handleSubmit(onSubmitPersonal)]: the resolver runs
    first and the handler is called only with values that passed it. *)
Definition handleSubmitPersonal (raw : Personal.RawValues) : list Event :=
  match Personal.personalProjectSchema raw with
  | Zod.Success values => run (onSubmitPersonal values)
  | Zod.Failure _ => []
  end.

(** [externalForm.handleSubmit(onSubmitExternal)] *)
Definition handleSubmitExternal (raw : External.RawValues) : list Event :=
  match External.externalReferenceSchema raw with
  | Zod.Success values => run (onSubmitExternal values)
  | Zod.Failure _ => []
  end.

End Handlers.

(* ================================================================= *)
(** ** Reading a trace *)

(** The rows sent to [external_references], in call order. *)
Fixpoint createLink_calls (t : list Event) : list (string * string * string) :=
  match t with
  | [] => []
  | EvInsert url project_name user_id :: rest =>
      (url, project_name, user_id) :: createLink_calls rest
  | _ :: rest => createLink_calls rest
  end.

Definition is_gateway_call (e : Event) : bool :=
  match e with
  | EvAddProject _ _ | EvGetSession | EvInsert _ _ _ => true
  | _ => false
  end.

(** The calls made to the collaborators, in order. *)
Definition gateway_calls (t : list Event) : list Event :=
  filter is_gateway_call t.

(** Everything the handler reports back: toasts, console output and
    what it does to the dialog and the form. *)
Definition reports (t : list Event) : list Event :=
  filter (fun e => negb (is_gateway_call e)) t.

(** What the link loop does after a reply to an insert. *)
Definition on_insert_reply (error : option Err) : list Event :=
  match error with
  | Some error => [EvConsoleError "Error adding external reference:" error;
                   EvToastError "Failed to add external reference"]
  | None => []
  end.

(** The events of the link loop of [onSubmitExternal] over the trimmed
    tokens [links], when [i] inserts were issued before it. *)
Fixpoint link_events (b : Backend) (project_name user_id : string)
         (i : nat) (links : list string) : list Event :=
  match links with
  | [] => []
  | url :: rest =>
      if JS.truthy url then
        (EvInsert url project_name user_id
         :: on_insert_reply (insert_reply b i url project_name user_id)
         ++ link_events b project_name user_id (S i) rest)%list
      else link_events b project_name user_id i rest
  end.

(** The candidate URLs in the words of the specification: split the raw
    text on commas, trim each token, discard the empty tokens. *)
Definition candidateUrls (externalLinks : string) : list string :=
  filter JS.truthy (map JS.trim (JS.split "," externalLinks)).

(** Each candidate URL with the reply its insert receives, the first
    candidate being insert number [i]. *)
Fixpoint link_replies (b : Backend) (project_name user_id : string)
         (i : nat) (candidates : list string) : list (string * option Err) :=
  match candidates with
  | [] => []
  | url :: rest =>
      (url, insert_reply b i url project_name user_id)
      :: link_replies b project_name user_id (S i) rest
  end.

(** The candidate URLs whose insert came back with an error. *)
Definition failedUrls (b : Backend) (project_name user_id : string)
           (candidates : list string) : list string :=
  map fst (filter (fun r => match snd r with Some _ => true | None => false end)
                  (link_replies b project_name user_id 0 candidates)).

(** The year check of both schemas, as a predicate on the raw value. *)
Definition year_ok (y : option JS.number) : bool :=
  match y with
  | None => true
  | Some JS.NaN => false
  | Some (JS.Num z) => Z.leb 1900 z && Z.leb z 2100
  end.

(** The year of the validated values, for a raw year that passed. *)
Definition year_value (y : option JS.number) : option Z :=
  match y with
  | Some (JS.Num z) => Some z
  | _ => None
  end.

(** A string made of whitespace only. *)
Fixpoint whitespace_only (s : string) : bool :=
  match s with
  | EmptyString => true
  | String c s' => JS.is_whitespace c && whitespace_only s'
  end.

(* ================================================================= *)
(** ** Predicates on strings and traces used in the statements *)

(** Does [c] occur in [s]? *)
Fixpoint occurs (c : ascii) (s : string) : bool :=
  match s with
  | EmptyString => false
  | String a s' => Ascii.eqb a c || occurs c s'
  end.

(** Number of occurrences of [c] in [s]. *)
Fixpoint count_char (c : ascii) (s : string) : nat :=
  match s with
  | EmptyString => 0
  | String a s' => (if Ascii.eqb a c then 1 else 0) + count_char c s'
  end.

(** A string made of commas and whitespace only. *)
Fixpoint commas_and_whitespace_only (s : string) : bool :=
  match s with
  | EmptyString => true
  | String c s' =>
      (Ascii.eqb c "," || JS.is_whitespace c) && commas_and_whitespace_only s'
  end.

Definition starts_with_whitespace (s : string) : bool :=
  match s with
  | EmptyString => false
  | String c _ => JS.is_whitespace c
  end.

Fixpoint ends_with_whitespace (s : string) : bool :=
  match s with
  | EmptyString => false
  | String c EmptyString => JS.is_whitespace c
  | String _ s' => ends_with_whitespace s'
  end.

(** A string at which reading decimal digits stops. *)
Definition stops_digits (tail : string) : Prop :=
  match tail with
  | EmptyString => True
  | String c _ => JS.digit_value 10 c = None
  end.

(** A string that cannot complete a leading ["0"] into a hex prefix. *)
Definition not_hex_marker (tail : string) : Prop :=
  match tail with
  | EmptyString => True
  | String c _ => c <> "x"%char /\ c <> "X"%char
  end.

(** [tokens.join(sep)]: the tokens with [sep] between them. *)
Fixpoint join (sep : string) (tokens : list string) : string :=
  match tokens with
  | [] => ""
  | token :: rest =>
      match rest with
      | [] => token
      | _ :: _ => token ++ sep ++ join sep rest
      end
  end.

(** Trimming in the words of the specification: [url] is [token]
    without the whitespace before and after it, so [token] is [url]
    between two runs of whitespace and [url] neither starts nor ends
    with whitespace. *)
Definition is_trim_of (token url : string) : Prop :=
  starts_with_whitespace url = false
  /\ ends_with_whitespace url = false
  /\ exists before after,
       token = before ++ url ++ after
       /\ whitespace_only before = true
       /\ whitespace_only after = true.

(** The arguments of the [addProject] calls of a trace, in order. *)
Fixpoint addProject_calls (t : list Event) : list (string * string) :=
  match t with
  | [] => []
  | EvAddProject name description :: rest =>
      (name, description) :: addProject_calls rest
  | _ :: rest => addProject_calls rest
  end.

(** Number of session lookups in a trace. *)
Fixpoint getSession_calls (t : list Event) : nat :=
  match t with
  | [] => 0
  | EvGetSession :: rest => S (getSession_calls rest)
  | _ :: rest => getSession_calls rest
  end.

(** An optional string with the empty string taken as absent. *)
Definition absent_if_empty (v : option string) : option string :=
  match v with
  | Some EmptyString => None
  | _ => v
  end.

(** A raw value that is a non-empty string. *)
Definition filled (v : option string) : bool :=
  match v with
  | Some s => JS.truthy s
  | None => false
  end.

(* ================================================================= *)
(** ** Collaborators and inputs used in the examples *)

Definition accepting (session : option Session) (f : nat -> option Err) : Backend :=
  {| addProject_reply := fun _ _ => None;
     getSession_reply := session;
     insert_reply := fun i _ _ _ => f i |}.

Definition rejecting (error : Err) : Backend :=
  {| addProject_reply := fun _ _ => Some error;
     getSession_reply := Some {| user := {| id := "u-1" |} |};
     insert_reply := fun _ _ _ _ => None |}.

Definition a_session : Session := {| user := {| id := "u-1" |} |}.

Definition typography : External.FormValues :=
  External.mkValues "Ref" (Some March) (Some 2023%Z) (Some "2 weeks")
                    "Typography" (Some "A, B")
                    "https://a.com, , https://b.com,".

Definition poster (duration coAuthors externalLinks : option string)
  : Personal.RawValues :=
  Personal.mkRaw (Some "Poster") None (Some (JS.Num 2022)) duration
                 (Some "Print") coAuthors externalLinks.

(** Replies to inserts where insert number [k] comes back with [error]
    and every other one succeeds. *)
Definition fails_at (k : nat) (error : Err) : nat -> option Err :=
  fun i => if Nat.eqb i k then Some error else None.

Definition fails_first : Backend := accepting (Some a_session) (fails_at 0 "boom").
Definition fails_second : Backend := accepting (Some a_session) (fails_at 1 "boom").
Definition all_succeed : Backend := accepting (Some a_session) (fun _ => None).

Definition all_fail : Backend :=
  accepting (Some a_session) (fun _ => Some "boom").

Definition three_links : External.FormValues :=
  External.mkValues "Ref" None None (Some "") "Typography" (Some "")
                    "https://a.com,https://b.com,https://c.com".

Definition spaced_links : External.FormValues :=
  External.mkValues "Ref" None None (Some "") "Typography" (Some "")
                    ("  https://a.com  ,https://b.com " ++ LF).

Definition blank_links : External.RawValues :=
  External.mkRaw (Some "Ref") None None (Some "") (Some "Typography")
                 (Some "") (Some " ").

(* ================================================================= *)
(** ** The handlers, step by step *)

Ltac step_async :=
  cbv [run onSubmitPersonal onSubmitExternal try_catch bind ret addProject
       getSession insert emit toast_success toast_error console_error
       setOpen personalForm_reset externalForm_reset trace inserts snd].

(** The link loop never throws; it appends [link_events] to the trace. *)
Lemma for_of_links (b : Backend) (project_name user_id : string)
      (links : list string) :
  forall w,
    exists n,
      for_of links (fun url =>
        if JS.truthy url then
          error <- insert b url project_name user_id ;;
          match error with
          | Some error =>
              console_error "Error adding external reference:" error ;;
              toast_error "Failed to add external reference"
          | None => ret tt
          end
        else ret tt) w
      = (Normal tt,
         mkWorld (trace w ++ link_events b project_name user_id (inserts w) links)%list n).
Proof.
  set (body := fun url : string => _).
  assert (Hbody : forall url t i,
    body url (mkWorld t i)
    = (Normal tt,
       if JS.truthy url
       then mkWorld (t ++ EvInsert url project_name user_id
                       :: on_insert_reply (insert_reply b i url project_name user_id))%list
                    (S i)
       else mkWorld t i)).
  { intros url t i. unfold body. destruct (JS.truthy url); [|reflexivity].
    step_async. destruct (insert_reply b i url project_name user_id); simpl;
      now rewrite <- ?app_assoc. }
  clearbody body.
  induction links as [|url rest IH]; intros [t i].
  - exists i. simpl. unfold ret. now rewrite app_nil_r.
  - cbn [for_of link_events]. unfold bind. rewrite Hbody.
    cbn [trace inserts].
    destruct (JS.truthy url).
    + destruct (IH (mkWorld (t ++ EvInsert url project_name user_id
                       :: on_insert_reply (insert_reply b i url project_name user_id))%list
                    (S i))) as [n Hn].
      exists n. rewrite Hn. cbn [trace inserts].
      now rewrite <- app_assoc.
    + apply (IH (mkWorld t i)).
Qed.

(** [onSubmitPersonal], all cases. *)
Lemma run_onSubmitPersonal (b : Backend) (values : Personal.FormValues) :
  run (onSubmitPersonal b values)
  = EvAddProject (Personal.name values) (JS.trim (Personal.description values))
    :: match addProject_reply b (Personal.name values)
                              (JS.trim (Personal.description values)) with
       | None => [EvToastSuccess "Project created successfully!";
                  EvSetOpen false; EvPersonalFormReset]
       | Some error => [EvConsoleError "Error creating project:" error;
                        EvToastError "Failed to create project"]
       end.
Proof.
  step_async.
  destruct (addProject_reply b _ _); reflexivity.
Qed.

(** [onSubmitExternal], all cases. *)
Lemma run_onSubmitExternal (b : Backend) (values : External.FormValues) :
  run (onSubmitExternal b values)
  = EvAddProject (External.name values) (JS.trim (External.description values))
    :: match addProject_reply b (External.name values)
                              (JS.trim (External.description values)) with
       | Some error =>
           [EvConsoleError "Error creating external reference:" error;
            EvToastError "Failed to create external reference"]
       | None =>
           EvGetSession
           :: match getSession_reply b with
              | None =>
                  [EvToastError "You must be logged in to add external references"]
              | Some session =>
                  (link_events b (External.name values) (id (user session)) 0
                     (map JS.trim (JS.split "," (External.externalLinks values)))
                   ++ [EvToastSuccess "External reference created successfully!";
                       EvSetOpen false; EvExternalFormReset])%list
              end
       end.
Proof.
  unfold run, onSubmitExternal, try_catch.
  unfold bind at 1. unfold addProject at 1.
  destruct (addProject_reply b _ _) as [e|]; [reflexivity|].
  unfold bind at 1. unfold getSession at 1.
  destruct (getSession_reply b) as [session|]; [|reflexivity].
  unfold bind at 1.
  match goal with
  | |- context [for_of ?l ?f ?w] =>
      destruct (for_of_links b (External.name values) (id (user session))
                             (map JS.trim (JS.split "," (External.externalLinks values))) w)
        as [n Hn]
  end.
  cbv beta in Hn |- *. rewrite Hn. step_async. cbn [app].
  now rewrite <- !app_assoc.
Qed.

(* ================================================================= *)
(** ** The link loop and the candidate URLs *)

Lemma createLink_calls_app (t1 t2 : list Event) :
  createLink_calls (t1 ++ t2)%list
  = (createLink_calls t1 ++ createLink_calls t2)%list.
Proof.
  induction t1 as [|e t1 IH]; [reflexivity|].
  destruct e; simpl; now rewrite ?IH.
Qed.

Lemma reports_app (t1 t2 : list Event) :
  reports (t1 ++ t2)%list = (reports t1 ++ reports t2)%list.
Proof. apply filter_app. Qed.

Lemma createLink_calls_on_insert_reply (r : option Err) :
  createLink_calls (on_insert_reply r) = [].
Proof. now destruct r. Qed.

Lemma reports_on_insert_reply (r : option Err) :
  reports (on_insert_reply r) = on_insert_reply r.
Proof. now destruct r. Qed.

(** The loop skips the empty tokens, so it runs over the candidates. *)
Lemma link_events_filter (b : Backend) (project_name user_id : string)
      (links : list string) :
  forall i,
    link_events b project_name user_id i links
    = link_events b project_name user_id i (filter JS.truthy links).
Proof.
  induction links as [|url rest IH]; intro i; [reflexivity|].
  simpl. destruct (JS.truthy url) eqn:E; simpl; rewrite ?E; [|apply IH].
  now rewrite IH.
Qed.

Lemma truthy_filter (links : list string) :
  forallb JS.truthy (filter JS.truthy links) = true.
Proof.
  induction links as [|url rest IH]; [reflexivity|].
  simpl. destruct (JS.truthy url) eqn:E; simpl; now rewrite ?E.
Qed.

(** One insert per candidate, in order. *)
Lemma createLink_calls_link_events (b : Backend) (project_name user_id : string)
      (candidates : list string) :
  forallb JS.truthy candidates = true ->
  forall i,
    createLink_calls (link_events b project_name user_id i candidates)
    = map (fun url => (url, project_name, user_id)) candidates.
Proof.
  induction candidates as [|url rest IH]; intros H i; [reflexivity|].
  simpl in H. apply andb_true_iff in H as [Hu Hr].
  simpl. rewrite Hu. simpl.
  rewrite createLink_calls_app, createLink_calls_on_insert_reply.
  simpl. now rewrite IH.
Qed.

(** The loop reports the two error events of each failed insert and
    nothing else. *)
Lemma reports_link_events (b : Backend) (project_name user_id : string)
      (candidates : list string) :
  forallb JS.truthy candidates = true ->
  forall i,
    reports (link_events b project_name user_id i candidates)
    = flat_map (fun r => on_insert_reply (snd r))
               (link_replies b project_name user_id i candidates).
Proof.
  induction candidates as [|url rest IH]; intros H i; [reflexivity|].
  simpl in H. apply andb_true_iff in H as [Hu Hr].
  simpl. rewrite Hu.
  change (reports (EvInsert url project_name user_id :: ?t)) with (reports t).
  rewrite reports_app, reports_on_insert_reply.
  now rewrite IH.
Qed.

(** A failed insert is reported first by a console error. *)
Lemma failed_reply_reported (replies : list (string * option Err)) :
  map fst (filter (fun r => match snd r with Some _ => true | None => false end)
                  replies) <> [] ->
  exists error rest,
    flat_map (fun r => on_insert_reply (snd r)) replies
    = EvConsoleError "Error adding external reference:" error :: rest.
Proof.
  induction replies as [|[url [e|]] replies IH]; intro H.
  - now elim H.
  - simpl. eexists. eexists. reflexivity.
  - simpl in *. exact (IH H).
Qed.

(* ================================================================= *)
(** ** Properties of the schemas *)

Lemma error_of_app (path : string) (e1 e2 : FieldErrors) :
  error_of path (e1 ++ e2)%list
  = match error_of path e1 with
    | Some i => Some i
    | None => error_of path e2
    end.
Proof.
  induction e1 as [|[p i] e1 IH]; [reflexivity|].
  simpl. now destruct (String.eqb p path).
Qed.

Lemma error_of_issues_other {A : Type} (path other : string) (p : Parsed A) :
  String.eqb other path = false ->
  error_of path (Zod.issues other p) = None.
Proof.
  intro H. destruct p as [a|l]; [reflexivity|].
  induction l as [|i l IH]; [reflexivity|].
  simpl. now rewrite H.
Qed.

(** The two possible results of [personalProjectSchema]. *)
Lemma personalProjectSchema_cases (raw : Personal.RawValues) :
  match Personal.personalProjectSchema raw with
  | Zod.Success values =>
      Zod.string_min 1 "Project name is required" (Personal.raw_name raw)
      = inl (Personal.name values)
      /\ Zod.string_min 1 "Field is required" (Personal.raw_field raw)
         = inl (Personal.field values)
  | Zod.Failure errors =>
      errors
      = (Zod.issues "name"
           (Zod.string_min 1 "Project name is required" (Personal.raw_name raw))
         ++ Zod.issues "year"
              (Zod.number_min_max_optional 1900 2100 (Personal.raw_year raw))
         ++ Zod.issues "field"
              (Zod.string_min 1 "Field is required" (Personal.raw_field raw)))%list
  end.
Proof.
  destruct raw as [n m y d f c l].
  unfold Personal.personalProjectSchema.
  cbn [Personal.raw_name Personal.raw_month Personal.raw_year
       Personal.raw_duration Personal.raw_field Personal.raw_coAuthors
       Personal.raw_externalLinks].
  unfold Zod.string_optional, Zod.date_optional.
  destruct (Zod.string_min 1 "Project name is required" n),
           (Zod.number_min_max_optional 1900 2100 y),
           (Zod.string_min 1 "Field is required" f);
    cbn [Zod.issues app Personal.name Personal.field];
    rewrite ?app_nil_r; auto.
Qed.

(** The two possible results of [externalReferenceSchema]. *)
Lemma externalReferenceSchema_cases (raw : External.RawValues) :
  match External.externalReferenceSchema raw with
  | Zod.Success values =>
      Zod.string_min 1 "Reference name is required" (External.raw_name raw)
      = inl (External.name values)
      /\ Zod.string_min 1 "Field is required" (External.raw_field raw)
         = inl (External.field values)
      /\ Zod.string_min 1 "At least one external link is required"
                        (External.raw_externalLinks raw)
         = inl (External.externalLinks values)
  | Zod.Failure errors =>
      errors
      = (Zod.issues "name"
           (Zod.string_min 1 "Reference name is required" (External.raw_name raw))
         ++ Zod.issues "year"
              (Zod.number_min_max_optional 1900 2100 (External.raw_year raw))
         ++ Zod.issues "field"
              (Zod.string_min 1 "Field is required" (External.raw_field raw))
         ++ Zod.issues "externalLinks"
              (Zod.string_min 1 "At least one external link is required"
                              (External.raw_externalLinks raw)))%list
  end.
Proof.
  destruct raw as [n m y d f a l].
  unfold External.externalReferenceSchema.
  cbn [External.raw_name External.raw_month External.raw_year
       External.raw_duration External.raw_field External.raw_authors
       External.raw_externalLinks].
  unfold Zod.string_optional, Zod.date_optional.
  destruct (Zod.string_min 1 "Reference name is required" n),
           (Zod.number_min_max_optional 1900 2100 y),
           (Zod.string_min 1 "Field is required" f),
           (Zod.string_min 1 "At least one external link is required" l);
    cbn [Zod.issues app External.name External.field External.externalLinks];
    rewrite ?app_nil_r; auto.
Qed.

(** Evaluate a schema on closed raw values. *)
Ltac eval_schema :=
  match goal with
  | |- context [Personal.personalProjectSchema ?r] =>
      let v := eval vm_compute in (Personal.personalProjectSchema r) in
      change (Personal.personalProjectSchema r) with v; cbv iota beta
  | |- context [External.externalReferenceSchema ?r] =>
      let v := eval vm_compute in (External.externalReferenceSchema r) in
      change (External.externalReferenceSchema r) with v; cbv iota beta
  end.

(** A raw year within the bounds parses to its value. *)
Lemma parse_year_ok (y : option JS.number) :
  year_ok y = true ->
  Zod.number_min_max_optional 1900 2100 y = inl (year_value y).
Proof.
  destruct y as [[|z]|]; simpl; try discriminate; try reflexivity.
  intro H. apply andb_true_iff in H as [H1 H2].
  apply Z.leb_le in H1. apply Z.leb_le in H2.
  destruct (Z.ltb_spec z 1900); [lia|].
  destruct (Z.ltb_spec 2100 z); [lia|]. reflexivity.
Qed.

(** Non-empty strings pass [.min(1)], whatever they are made of. *)
Lemma string_min_1_nonempty (message s : string) :
  s <> "" -> Zod.string_min 1 message (Some s) = inl s.
Proof. destruct s; [congruence|reflexivity]. Qed.

(* ================================================================= *)
(** ** Properties of [trim] and [split] *)

Lemma starts_trimStart (s : string) :
  starts_with_whitespace (JS.trimStart s) = false.
Proof.
  induction s as [|c s IH]; [reflexivity|].
  simpl. destruct (JS.is_whitespace c) eqn:E; [exact IH|]. simpl. exact E.
Qed.

Lemma trimStart_fixed (s : string) :
  starts_with_whitespace s = false -> JS.trimStart s = s.
Proof. destruct s as [|c s]; [reflexivity|]. simpl. now intros ->. Qed.

Lemma starts_trimEnd (s : string) :
  starts_with_whitespace s = false ->
  starts_with_whitespace (JS.trimEnd s) = false.
Proof.
  destruct s as [|c s]; [reflexivity|]. simpl. intro H.
  destruct (JS.trimEnd s); simpl; now rewrite ?H.
Qed.

Lemma ends_trimEnd (s : string) :
  ends_with_whitespace (JS.trimEnd s) = false.
Proof.
  induction s as [|c s IH]; [reflexivity|].
  simpl. destruct (JS.trimEnd s) as [|a t].
  - destruct (JS.is_whitespace c) eqn:E; simpl; [reflexivity|exact E].
  - exact IH.
Qed.

Lemma trimEnd_fixed (s : string) :
  ends_with_whitespace s = false -> JS.trimEnd s = s.
Proof.
  induction s as [|c s IH]; [reflexivity|].
  destruct s as [|a s].
  - simpl. now intros ->.
  - intro H. change (ends_with_whitespace (String a s) = false) in H.
    specialize (IH H). cbn [JS.trimEnd] in IH |- *. now rewrite IH.
Qed.

(** [trim] leaves neither leading nor trailing whitespace, and trimming
    twice changes nothing more. *)
Lemma trim_trimmed (s : string) :
  starts_with_whitespace (JS.trim s) = false
  /\ ends_with_whitespace (JS.trim s) = false
  /\ JS.trim (JS.trim s) = JS.trim s.
Proof.
  assert (A : starts_with_whitespace (JS.trim s) = false)
    by apply starts_trimEnd, starts_trimStart.
  assert (B : ends_with_whitespace (JS.trim s) = false) by apply ends_trimEnd.
  repeat split; try assumption.
  unfold JS.trim at 1. rewrite (trimStart_fixed _ A). now apply trimEnd_fixed.
Qed.

(** A non-empty prefix that does not end in whitespace survives
    [trimEnd]. *)
Lemma trimEnd_keeps_prefix (s t : string) :
  s <> "" -> ends_with_whitespace s = false ->
  exists r, JS.trimEnd (s ++ t) = s ++ r.
Proof.
  induction s as [|c s IH]; [congruence|]. intros _ H.
  destruct s as [|a s].
  - simpl in H. cbn [append JS.trimEnd].
    destruct (JS.trimEnd t) as [|b r].
    + rewrite H. now exists "".
    + now exists (String b r).
  - change (ends_with_whitespace (String a s) = false) in H.
    destruct (IH ltac:(discriminate) H) as [r Hr].
    exists r. change (String c (String a s) ++ t) with (String c (String a s ++ t)).
    cbn [JS.trimEnd]. rewrite Hr. reflexivity.
Qed.

Lemma whitespace_only_trimStart (s : string) :
  whitespace_only (JS.trimStart s) = whitespace_only s.
Proof.
  induction s as [|c s IH]; [reflexivity|].
  simpl. destruct (JS.is_whitespace c) eqn:E; [exact IH|]. simpl. now rewrite E.
Qed.

Lemma truthy_trimEnd (s : string) :
  JS.truthy (JS.trimEnd s) = negb (whitespace_only s).
Proof.
  induction s as [|c s IH]; [reflexivity|].
  simpl. destruct (JS.trimEnd s) as [|a t]; simpl in IH.
  - apply (f_equal negb) in IH. rewrite negb_involutive in IH. simpl in IH.
    rewrite <- IH, andb_true_r. now destruct (JS.is_whitespace c).
  - apply (f_equal negb) in IH. rewrite negb_involutive in IH. simpl in IH.
    rewrite <- IH, andb_false_r. reflexivity.
Qed.

(** A token trims to the empty string exactly when it is made of
    whitespace only. *)
Lemma truthy_trim (s : string) :
  JS.truthy (JS.trim s) = negb (whitespace_only s).
Proof.
  unfold JS.trim. now rewrite truthy_trimEnd, whitespace_only_trimStart.
Qed.

Lemma occurs_trimStart (c : ascii) (s : string) :
  occurs c s = false -> occurs c (JS.trimStart s) = false.
Proof.
  induction s as [|a s IH]; [reflexivity|].
  simpl. intro H. apply orb_false_iff in H as [H1 H2].
  destruct (JS.is_whitespace a); [now apply IH|]. simpl. now rewrite H1, H2.
Qed.

Lemma occurs_trimEnd (c : ascii) (s : string) :
  occurs c s = false -> occurs c (JS.trimEnd s) = false.
Proof.
  induction s as [|a s IH]; [reflexivity|].
  simpl. intro H. apply orb_false_iff in H as [H1 H2].
  specialize (IH H2).
  destruct (JS.trimEnd s) as [|b t].
  - destruct (JS.is_whitespace a); simpl; now rewrite ?H1.
  - simpl in *. now rewrite H1, IH.
Qed.

Lemma split_not_nil (c : ascii) (s : string) : JS.split c s <> [].
Proof.
  destruct s as [|a s]; simpl; [discriminate|].
  destruct (Ascii.eqb a c); [discriminate|].
  destruct (JS.split c s); discriminate.
Qed.

(** No token of [split] contains the separator. *)
Lemma split_tokens_no_separator (c : ascii) (s : string) :
  forall token, In token (JS.split c s) -> occurs c token = false.
Proof.
  induction s as [|a s IH]; simpl; intros token H.
  - destruct H as [<-|[]]. reflexivity.
  - destruct (Ascii.eqb a c) eqn:E.
    + destruct H as [<-|H]; [reflexivity|now apply IH].
    + destruct (JS.split c s) as [|t ts].
      * destruct H as [<-|[]]. simpl. now rewrite E.
      * destruct H as [<-|H].
        -- simpl. rewrite E. apply IH. now left.
        -- apply IH. now right.
Qed.

(** [trimStart] removes a run of whitespace from the front. *)
Lemma trimStart_removes_whitespace (s : string) :
  exists before,
    s = before ++ JS.trimStart s /\ whitespace_only before = true.
Proof.
  induction s as [|c s [before [E W]]]; [now exists ""|].
  simpl. destruct (JS.is_whitespace c) eqn:C.
  - exists (String c before). simpl. rewrite C, W. now rewrite <- E.
  - now exists "".
Qed.

(** [trimEnd] removes a run of whitespace from the back. *)
Lemma trimEnd_removes_whitespace (s : string) :
  exists after,
    s = JS.trimEnd s ++ after /\ whitespace_only after = true.
Proof.
  induction s as [|c s [after [E W]]]; [now exists ""|].
  simpl. destruct (JS.trimEnd s) as [|a t].
  - simpl in E. subst s. destruct (JS.is_whitespace c) eqn:C.
    + exists (String c after). simpl. now rewrite C, W.
    + now exists after.
  - exists after. subst s. split; [reflexivity|exact W].
Qed.

(** [trim] does what the specification calls trimming. *)
Lemma trim_is_trim_of (token : string) : is_trim_of token (JS.trim token).
Proof.
  destruct (trim_trimmed token) as (A & B & _).
  split; [exact A|]. split; [exact B|].
  destruct (trimStart_removes_whitespace token) as [before [E1 W1]].
  destruct (trimEnd_removes_whitespace (JS.trimStart token)) as [after [E2 W2]].
  exists before, after. fold (JS.trim token) in E2.
  repeat split; try assumption. now rewrite <- E2.
Qed.

Lemma Forall2_trim (tokens : list string) :
  Forall2 is_trim_of tokens (map JS.trim tokens).
Proof.
  induction tokens as [|token rest IH]; constructor;
    [apply trim_is_trim_of|exact IH].
Qed.

(** Joining the tokens of [split] with the separator gives the text
    back. *)
Lemma join_split (c : ascii) (s : string) :
  join (String c "") (JS.split c s) = s.
Proof.
  induction s as [|a s IH]; [reflexivity|].
  pose proof (split_not_nil c s) as N.
  cbn [JS.split]. destruct (Ascii.eqb a c) eqn:E.
  - apply Ascii.eqb_eq in E. subst a.
    destruct (JS.split c s) as [|x xs]; [congruence|].
    change (join (String c "") ("" :: x :: xs))
      with (String c (join (String c "") (x :: xs))).
    now rewrite IH.
  - destruct (JS.split c s) as [|x xs]; [congruence|].
    destruct xs as [|y ys].
    + simpl in *. now rewrite IH.
    + change (join (String c "") (String a x :: y :: ys))
        with (String a (join (String c "") (x :: y :: ys))).
      now rewrite IH.
Qed.

(** Splitting a text made of two parts joined by the separator gives
    the tokens of the first part followed by those of the second. *)
Lemma split_app (c : ascii) (s t : string) :
  JS.split c (s ++ String c t) = (JS.split c s ++ JS.split c t)%list.
Proof.
  induction s as [|a s IH].
  - simpl. now rewrite Ascii.eqb_refl.
  - cbn [append JS.split]. destruct (Ascii.eqb a c); [now rewrite IH|].
    rewrite IH. pose proof (split_not_nil c s) as N.
    destruct (JS.split c s) as [|x xs]; [congruence|reflexivity].
Qed.

(** One more token than separators. *)
Lemma length_split (c : ascii) (s : string) :
  List.length (JS.split c s) = S (count_char c s).
Proof.
  induction s as [|a s IH]; [reflexivity|].
  simpl. destruct (Ascii.eqb a c); simpl; [now rewrite IH|].
  pose proof (split_not_nil c s) as N.
  destruct (JS.split c s) as [|x xs]; [congruence|exact IH].
Qed.

Lemma commas_and_whitespace_split (s : string) :
  commas_and_whitespace_only s = forallb whitespace_only (JS.split "," s).
Proof.
  induction s as [|a s IH]; [reflexivity|].
  simpl. destruct (Ascii.eqb a ",") eqn:E; simpl; [exact IH|].
  pose proof (split_not_nil "," s) as N.
  destruct (JS.split "," s) as [|x xs]; [congruence|].
  simpl in *. rewrite IH. now rewrite andb_assoc.
Qed.

Lemma filter_nil_forallb {A : Type} (f : A -> bool) (l : list A) :
  filter f l = [] <-> forallb (fun x => negb (f x)) l = true.
Proof.
  induction l as [|x l IH]; simpl; [tauto|].
  destruct (f x); simpl; [split; discriminate|exact IH].
Qed.

(** No candidate URL exactly when the text is commas and whitespace. *)
Lemma candidateUrls_nil (s : string) :
  candidateUrls s = [] <-> commas_and_whitespace_only s = true.
Proof.
  unfold candidateUrls. rewrite filter_nil_forallb, commas_and_whitespace_split.
  assert (E : forall l, forallb (fun x => negb (JS.truthy x)) (map JS.trim l)
                        = forallb whitespace_only l).
  { induction l as [|x l IH]; [reflexivity|].
    simpl. now rewrite IH, truthy_trim, negb_involutive. }
  now rewrite E.
Qed.

(** The candidates of a text are non-empty and comma-free, and each is
    a token of the text without its surrounding whitespace. *)
Lemma candidateUrls_well_formed (s url : string) :
  In url (candidateUrls s) ->
  url <> ""
  /\ starts_with_whitespace url = false
  /\ ends_with_whitespace url = false
  /\ occurs "," url = false
  /\ exists token, In token (JS.split "," s) /\ is_trim_of token url.
Proof.
  unfold candidateUrls. intro H. apply filter_In in H as [H T].
  apply in_map_iff in H as [token [<- H]].
  split; [|split; [|split; [|split]]].
  - intro E. rewrite E in T. discriminate T.
  - apply trim_trimmed.
  - apply trim_trimmed.
  - apply occurs_trimEnd, occurs_trimStart.
    now apply (split_tokens_no_separator "," s).
  - exists token. split; [exact H|apply trim_is_trim_of].
Qed.

(* ================================================================= *)
(** ** Properties of the submission *)

(** C1, as the code has it.  When the project was created and a session
    exists, one insert is issued per candidate URL, in order, and a
    failed insert does not stop the loop.  Each failed insert is
    reported by a console error and the toast "Failed to add external
    reference", neither of which names the URL; the handler then always
    reports "External reference created successfully!", closes the
    dialog and resets the form.  So a run with a failed insert differs
    from a fully successful one by its error toasts.  With three
    candidates of which only the second fails: three inserts, one error
    toast, then the success toast. *)
Theorem C1_partial_failure (b : Backend) (values : External.FormValues)
        (session : Session) :
  let name := External.name values in
  let uid := id (user session) in
  let candidates := candidateUrls (External.externalLinks values) in
  let t := run (onSubmitExternal b values) in
  let success := [EvToastSuccess "External reference created successfully!";
                  EvSetOpen false; EvExternalFormReset] in
  addProject_reply b name (JS.trim (External.description values)) = None ->
  getSession_reply b = Some session ->
  createLink_calls t = map (fun url => (url, name, uid)) candidates
  /\ reports t
     = (flat_map (fun r => on_insert_reply (snd r))
                 (link_replies b name uid 0 candidates)
        ++ success)%list
  /\ (failedUrls b name uid candidates <> [] -> reports t <> success)
  /\ (forall u1 u2 u3 error,
         candidates = [u1; u2; u3] ->
         insert_reply b 0 u1 name uid = None ->
         insert_reply b 1 u2 name uid = Some error ->
         insert_reply b 2 u3 name uid = None ->
         createLink_calls t = [(u1, name, uid); (u2, name, uid); (u3, name, uid)]
         /\ reports t
            = EvConsoleError "Error adding external reference:" error
              :: EvToastError "Failed to add external reference"
              :: success).
Proof.
  intros name uid candidates t success Hadd Hsession.
  assert (Hcalls : createLink_calls t = map (fun url => (url, name, uid)) candidates).
  { unfold t. rewrite run_onSubmitExternal.
    fold name. rewrite Hadd, Hsession. fold uid.
    cbn [createLink_calls]. rewrite createLink_calls_app.
    cbn [createLink_calls]. rewrite app_nil_r, link_events_filter.
    apply createLink_calls_link_events, truthy_filter. }
  assert (Hreports : reports t
     = (flat_map (fun r => on_insert_reply (snd r))
                 (link_replies b name uid 0 candidates) ++ success)%list).
  { unfold t. rewrite run_onSubmitExternal.
    fold name. rewrite Hadd, Hsession. fold uid.
    change (reports (EvAddProject ?n ?d :: EvGetSession :: ?l)) with (reports l).
    rewrite reports_app, link_events_filter.
    rewrite reports_link_events by apply truthy_filter.
    reflexivity. }
  split; [exact Hcalls|]. split; [exact Hreports|]. split.
  - intros Hfailed Heq. rewrite Hreports in Heq.
    destruct (failed_reply_reported _ Hfailed) as [error [rest E]].
    rewrite E in Heq. discriminate Heq.
  - intros u1 u2 u3 error Hc H0 H1 H2.
    rewrite Hcalls, Hreports, Hc. cbn [map link_replies flat_map].
    rewrite H0, H1, H2. split; reflexivity.
Qed.

Lemma C1_witness :
  createLink_calls (run (onSubmitExternal fails_second three_links))
  = [("https://a.com", "Ref", "u-1"); ("https://b.com", "Ref", "u-1");
     ("https://c.com", "Ref", "u-1")]
  /\ reports (run (onSubmitExternal fails_second three_links))
     = [EvConsoleError "Error adding external reference:" "boom";
        EvToastError "Failed to add external reference";
        EvToastSuccess "External reference created successfully!";
        EvSetOpen false; EvExternalFormReset].
Proof.
  exact (proj2 (proj2 (proj2 (C1_partial_failure fails_second three_links a_session
                                                 eq_refl eq_refl)))
               "https://a.com" "https://b.com" "https://c.com" "boom"
               eq_refl eq_refl eq_refl eq_refl).
Defined.

(** C1 as stated fails: what the handler reports does not list the
    failed URL.  With the same three links, the run where only the
    second insert fails and the run where only the first one fails issue
    three inserts each and report exactly the same events, and both end
    with the success toast of a fully successful run. *)
Lemma C1_counterexample :
  failedUrls fails_second "Ref" "u-1"
             (candidateUrls (External.externalLinks three_links))
  = ["https://b.com"]
  /\ failedUrls fails_first "Ref" "u-1"
                (candidateUrls (External.externalLinks three_links))
     = ["https://a.com"]
  /\ List.length (createLink_calls (run (onSubmitExternal fails_second three_links))) = 3
  /\ reports (run (onSubmitExternal fails_second three_links))
     = reports (run (onSubmitExternal fails_first three_links))
  /\ reports (run (onSubmitExternal fails_second three_links))
     = (EvConsoleError "Error adding external reference:" "boom"
        :: EvToastError "Failed to add external reference"
        :: reports (run (onSubmitExternal all_succeed three_links)))
  /\ ~ (exists listed : list Event -> list string,
          forall b,
            addProject_reply b "Ref"
              (JS.trim (External.description three_links)) = None ->
            getSession_reply b = Some a_session ->
            listed (reports (run (onSubmitExternal b three_links)))
            = failedUrls b "Ref" "u-1"
                         (candidateUrls (External.externalLinks three_links))).
Proof.
  repeat (split; [reflexivity|]).
  intros [listed H].
  pose proof (H fails_second eq_refl eq_refl) as H2.
  pose proof (H fails_first eq_refl eq_refl) as H1.
  change (reports (run (onSubmitExternal fails_first three_links)))
    with (reports (run (onSubmitExternal fails_second three_links))) in H1.
  rewrite H2 in H1. discriminate H1.
Qed.

(** C2, as the code has it.  For the External variant an empty
    [externalLinks] fails validation with "At least one external link is
    required" and nothing is written; any value of length at least 1,
    whitespace-only values included, passes.  The Personal variant
    accepts an empty [externalLinks]. *)
Theorem C2_external_links_min_length (b : Backend) :
  (forall raw,
      External.raw_externalLinks raw = Some "" ->
      (exists errors,
          External.externalReferenceSchema raw = Zod.Failure errors
          /\ error_of "externalLinks" errors
             = Some (Message "At least one external link is required"))
      /\ handleSubmitExternal b raw = [])
  /\ (forall name month year duration field authors links,
         name <> "" -> field <> "" -> year_ok year = true ->
         links <> "" ->
         External.externalReferenceSchema
           (External.mkRaw (Some name) month year duration (Some field)
                           authors (Some links))
         = Zod.Success (External.mkValues name month (year_value year) duration
                                          field authors links))
  /\ (forall name month year duration field coAuthors,
         name <> "" -> field <> "" -> year_ok year = true ->
         Personal.personalProjectSchema
           (Personal.mkRaw (Some name) month year duration (Some field)
                           coAuthors (Some ""))
         = Zod.Success (Personal.mkValues name month (year_value year) duration
                                          field coAuthors (Some ""))).
Proof.
  split; [|split].
  - intros raw H.
    pose proof (externalReferenceSchema_cases raw) as C.
    unfold handleSubmitExternal.
    destruct (External.externalReferenceSchema raw) as [values|errors].
    + exfalso. destruct C as [_ [_ Cl]]. rewrite H in Cl. discriminate.
    + split; [|reflexivity]. exists errors. split; [reflexivity|].
      subst errors. rewrite H, !error_of_app.
      rewrite (error_of_issues_other "externalLinks" "name") by reflexivity.
      rewrite (error_of_issues_other "externalLinks" "year") by reflexivity.
      rewrite (error_of_issues_other "externalLinks" "field") by reflexivity.
      reflexivity.
  - intros name month year duration field authors links Hn Hf Hy Hl.
    unfold External.externalReferenceSchema.
    cbn [External.raw_name External.raw_month External.raw_year
         External.raw_duration External.raw_field External.raw_authors
         External.raw_externalLinks].
    now rewrite !string_min_1_nonempty, parse_year_ok.
  - intros name month year duration field coAuthors Hn Hf Hy.
    unfold Personal.personalProjectSchema.
    cbn [Personal.raw_name Personal.raw_month Personal.raw_year
         Personal.raw_duration Personal.raw_field Personal.raw_coAuthors
         Personal.raw_externalLinks].
    now rewrite !string_min_1_nonempty, parse_year_ok.
Qed.

Lemma C2_witness :
  handleSubmitExternal all_succeed External.defaultValues = []
  /\ External.externalReferenceSchema blank_links
     = Zod.Success (External.mkValues "Ref" None None (Some "") "Typography"
                                      (Some "") " ")
  /\ Personal.personalProjectSchema
       (Personal.mkRaw (Some "Poster") None None None (Some "Print") None (Some ""))
     = Zod.Success (Personal.mkValues "Poster" None None None "Print" None (Some "")).
Proof.
  assert (R : "Ref" <> "") by discriminate.
  assert (T : "Typography" <> "") by discriminate.
  assert (B : " " <> "") by discriminate.
  assert (P : "Poster" <> "") by discriminate.
  assert (F : "Print" <> "") by discriminate.
  split; [|split].
  - apply (proj1 (C2_external_links_min_length all_succeed)
                 External.defaultValues eq_refl).
  - exact (proj1 (proj2 (C2_external_links_min_length all_succeed))
                 "Ref" None None (Some "") "Typography" (Some "") " "
                 R T eq_refl B).
  - exact (proj2 (proj2 (C2_external_links_min_length all_succeed))
                 "Poster" None None None "Print" None P F eq_refl).
Defined.

(** C2 as stated fails: the External schema accepts the whitespace-only
    [externalLinks] value " ", and the submission then creates the
    project and no link. *)
Lemma C2_counterexample :
  whitespace_only " " = true
  /\ External.externalReferenceSchema blank_links
     = Zod.Success (External.mkValues "Ref" None None (Some "") "Typography"
                                      (Some "") " ")
  /\ handleSubmitExternal all_succeed blank_links
     = [EvAddProject "Ref" ("External Reference" ++ LF ++ "Field: Typography");
        EvGetSession;
        EvToastSuccess "External reference created successfully!";
        EvSetOpen false; EvExternalFormReset].
Proof. repeat split. Qed.

(** C3. In an External submission, when [addProject] rejects, the
    handler ends in its failure branch (console error and the toast
    "Failed to create external reference"): no session lookup and no
    insert is made.  Conversely an insert appears in a trace only after
    a successful [addProject] and the session lookup. *)
Theorem C3_links_only_after_project (b : Backend) (values : External.FormValues) :
  let name := External.name values in
  let description := JS.trim (External.description values) in
  let t := run (onSubmitExternal b values) in
  (forall error,
      addProject_reply b name description = Some error ->
      t = [EvAddProject name description;
           EvConsoleError "Error creating external reference:" error;
           EvToastError "Failed to create external reference"]
      /\ createLink_calls t = []
      /\ ~ In EvGetSession t)
  /\ (forall url project_name user_id,
         In (EvInsert url project_name user_id) t ->
         addProject_reply b name description = None
         /\ exists rest, t = EvAddProject name description :: EvGetSession :: rest).
Proof.
  intros name description t.
  pose proof (run_onSubmitExternal b values) as R.
  fold name description t in R. split.
  - intros error H. rewrite H in R. rewrite R. split; [reflexivity|].
    split; [reflexivity|].
    simpl. intuition discriminate.
  - intros url p u Hin. rewrite R in Hin.
    destruct (addProject_reply b name description) as [e|].
    + simpl in Hin. intuition discriminate.
    + split; [reflexivity|]. eexists. exact R.
Qed.

Lemma C3_witness :
  run (onSubmitExternal (rejecting "down") typography)
  = [EvAddProject "Ref"
       ("External Reference" ++ LF ++ "Field: Typography" ++ LF
        ++ "Date: March 2023" ++ LF ++ "Duration: 2 weeks" ++ LF
        ++ "Authors: A, B");
     EvConsoleError "Error creating external reference:" "down";
     EvToastError "Failed to create external reference"]
  /\ (In (EvInsert "https://a.com" "Ref" "u-1")
         (run (onSubmitExternal (accepting (Some a_session) (fun _ => None))
                                typography))
      /\ addProject_reply (accepting (Some a_session) (fun _ => None)) "Ref"
           (JS.trim (External.description typography)) = None).
Proof.
  split.
  - apply (proj1 (C3_links_only_after_project (rejecting "down") typography)
                 "down" eq_refl).
  - assert (H : In (EvInsert "https://a.com" "Ref" "u-1")
         (run (onSubmitExternal (accepting (Some a_session) (fun _ => None))
                                typography))).
    { vm_compute. right. right. left. reflexivity. }
    split; [exact H|].
    exact (proj1 (proj2 (C3_links_only_after_project
                           (accepting (Some a_session) (fun _ => None)) typography)
                        _ _ _ H)).
Defined.

(** C4. In an External submission where [addProject] succeeded and the
    session lookup returns [null], the trace is exactly: the project
    creation, the lookup, and the toast "You must be logged in to add
    external references".  No insert is issued, whatever the links; the
    report differs from the one of a failed project creation; and
    nothing follows that would undo the project creation. *)
Theorem C4_unauthorized (b : Backend) (values : External.FormValues) :
  let name := External.name values in
  let description := JS.trim (External.description values) in
  let t := run (onSubmitExternal b values) in
  addProject_reply b name description = None ->
  getSession_reply b = None ->
  t = [EvAddProject name description; EvGetSession;
       EvToastError "You must be logged in to add external references"]
  /\ createLink_calls t = []
  /\ gateway_calls t = [EvAddProject name description; EvGetSession]
  /\ (forall error,
         reports t
         <> [EvConsoleError "Error creating external reference:" error;
             EvToastError "Failed to create external reference"]).
Proof.
  intros name description t Hadd Hsession.
  pose proof (run_onSubmitExternal b values) as R.
  fold name description t in R. rewrite Hadd, Hsession in R.
  rewrite R. repeat split. intros error H. discriminate H.
Qed.

Lemma C4_witness :
  run (onSubmitExternal (accepting None (fun _ => None)) typography)
  = [EvAddProject "Ref" (JS.trim (External.description typography));
     EvGetSession;
     EvToastError "You must be logged in to add external references"].
Proof.
  apply (C4_unauthorized (accepting None (fun _ => None)) typography);
    reflexivity.
Defined.

(** C5. The description of an External submission is a function of the
    validated values alone: whatever the collaborators answer, the
    handler passes [trim(description)] to [addProject] first.  For field
    "Typography", month March, year 2023, duration "2 weeks" and authors
    "A, B" it is exactly the five lines below, and no description of an
    External submission depends on [externalLinks]. *)
Theorem C5_external_description :
  (forall name links,
      JS.trim (External.description
                 (External.mkValues name (Some March) (Some 2023%Z)
                                    (Some "2 weeks") "Typography"
                                    (Some "A, B") links))
      = "External Reference" ++ LF ++ "Field: Typography" ++ LF
        ++ "Date: March 2023" ++ LF ++ "Duration: 2 weeks" ++ LF
        ++ "Authors: A, B")
  /\ (forall name month year duration field authors links links',
         External.description
           (External.mkValues name month year duration field authors links)
         = External.description
             (External.mkValues name month year duration field authors links'))
  /\ (forall b values,
         exists rest,
           run (onSubmitExternal b values)
           = EvAddProject (External.name values)
                          (JS.trim (External.description values)) :: rest).
Proof.
  split; [intros; reflexivity|].
  split; [intros; reflexivity|].
  intros b values. rewrite run_onSubmitExternal. eexists. reflexivity.
Qed.

(** C6. Splitting on commas, trimming each token and dropping the empty
    tokens gives the candidate URLs: "https://a.com, , https://b.com,"
    gives "https://a.com" then "https://b.com".  The tokens are the
    pieces of the text between its commas (joined by commas they give
    the text back and none contains a comma); the candidates are, in
    order, the non-empty ones among the tokens stripped of the
    whitespace before and after them.  When the project was created and
    a session exists, the handler issues one insert per candidate, in
    that order, each carrying the project name and the user id. *)
Theorem C6_link_splitting (b : Backend) (values : External.FormValues)
        (session : Session) :
  candidateUrls "https://a.com, , https://b.com,"
  = ["https://a.com"; "https://b.com"]
  /\ (let tokens := JS.split "," (External.externalLinks values) in
      join "," tokens = External.externalLinks values
      /\ (forall token, In token tokens -> occurs "," token = false)
      /\ exists trimmed,
           Forall2 is_trim_of tokens trimmed
           /\ candidateUrls (External.externalLinks values)
              = filter (fun url => negb (String.eqb url "")) trimmed)
  /\ (addProject_reply b (External.name values)
                       (JS.trim (External.description values)) = None ->
      getSession_reply b = Some session ->
      createLink_calls (run (onSubmitExternal b values))
      = map (fun url => (url, External.name values, id (user session)))
            (candidateUrls (External.externalLinks values))).
Proof.
  split; [reflexivity|]. split.
  - cbv zeta. split; [apply join_split|].
    split; [apply split_tokens_no_separator|].
    exists (map JS.trim (JS.split "," (External.externalLinks values))).
    split; [apply Forall2_trim|].
    unfold candidateUrls. apply filter_ext. now intros [|c url].
  - intros Hadd Hsession.
    rewrite run_onSubmitExternal, Hadd, Hsession.
    cbn [createLink_calls]. rewrite createLink_calls_app.
    cbn [createLink_calls]. rewrite app_nil_r.
    rewrite link_events_filter.
    apply createLink_calls_link_events, truthy_filter.
Qed.

Lemma C6_witness :
  createLink_calls (run (onSubmitExternal all_succeed spaced_links))
  = [("https://a.com", "Ref", "u-1"); ("https://b.com", "Ref", "u-1")].
Proof.
  exact (proj2 (proj2 (C6_link_splitting all_succeed spaced_links a_session))
               eq_refl eq_refl).
Defined.

(** C7. The Personal submission with name "Poster", field "Print", year
    2022, no month and the other optional fields empty or absent passes
    validation and makes one call to a collaborator:
    [addProject("Poster", "Field: Print\nYear: 2022")].  When that call
    succeeds the handler reports success, closes the dialog and resets
    the form. *)
Theorem C7_personal_poster (b : Backend) (duration coAuthors links : option string) :
  JS.truthy_opt duration = false ->
  JS.truthy_opt coAuthors = false ->
  JS.truthy_opt links = false ->
  let call := EvAddProject "Poster" ("Field: Print" ++ LF ++ "Year: 2022") in
  gateway_calls (handleSubmitPersonal b (poster duration coAuthors links)) = [call]
  /\ (addProject_reply b "Poster" ("Field: Print" ++ LF ++ "Year: 2022") = None ->
      handleSubmitPersonal b (poster duration coAuthors links)
      = [call; EvToastSuccess "Project created successfully!";
         EvSetOpen false; EvPersonalFormReset]).
Proof.
  intros Hd Hc Hl call.
  assert (R : handleSubmitPersonal b (poster duration coAuthors links)
              = call :: match addProject_reply b "Poster"
                                ("Field: Print" ++ LF ++ "Year: 2022") with
                        | None => [EvToastSuccess "Project created successfully!";
                                   EvSetOpen false; EvPersonalFormReset]
                        | Some error => [EvConsoleError "Error creating project:" error;
                                         EvToastError "Failed to create project"]
                        end).
  { destruct duration as [[|? ?]|], coAuthors as [[|? ?]|], links as [[|? ?]|];
      try discriminate;
      unfold handleSubmitPersonal; eval_schema;
      rewrite run_onSubmitPersonal; reflexivity. }
  rewrite R. split.
  - destruct (addProject_reply b _ _); reflexivity.
  - intro H. now rewrite H.
Qed.

Lemma C7_witness :
  handleSubmitPersonal (accepting None (fun _ => None))
                       (poster (Some "") (Some "") (Some ""))
  = [EvAddProject "Poster" ("Field: Print" ++ LF ++ "Year: 2022");
     EvToastSuccess "Project created successfully!";
     EvSetOpen false; EvPersonalFormReset].
Proof.
  apply (C7_personal_poster (accepting None (fun _ => None))
                            (Some "") (Some "") (Some ""));
    reflexivity.
Defined.

(** C8. For both variants, raw values whose name or field is the empty
    string fail validation with the message of that field, and the
    submit handler is not run: the submission does nothing at all. *)
Theorem C8_validation_floor (b : Backend) :
  (forall raw,
      Personal.raw_name raw = Some "" \/ Personal.raw_field raw = Some "" ->
      (exists errors,
          Personal.personalProjectSchema raw = Zod.Failure errors
          /\ (Personal.raw_name raw = Some "" ->
              error_of "name" errors = Some (Message "Project name is required"))
          /\ (Personal.raw_field raw = Some "" ->
              error_of "field" errors = Some (Message "Field is required")))
      /\ handleSubmitPersonal b raw = [])
  /\ (forall raw,
         External.raw_name raw = Some "" \/ External.raw_field raw = Some "" ->
         (exists errors,
             External.externalReferenceSchema raw = Zod.Failure errors
             /\ (External.raw_name raw = Some "" ->
                 error_of "name" errors = Some (Message "Reference name is required"))
             /\ (External.raw_field raw = Some "" ->
                 error_of "field" errors = Some (Message "Field is required")))
         /\ handleSubmitExternal b raw = []).
Proof.
  split; intros raw H.
  - pose proof (personalProjectSchema_cases raw) as C.
    unfold handleSubmitPersonal.
    destruct (Personal.personalProjectSchema raw) as [values|errors].
    + exfalso. destruct C as [Cn Cf].
      destruct H as [H|H]; rewrite H in *; discriminate.
    + split; [|reflexivity]. exists errors. split; [reflexivity|].
      subst errors. split; intro E; rewrite E.
      * reflexivity.
      * rewrite !error_of_app.
        rewrite (error_of_issues_other "field" "name") by reflexivity.
        rewrite (error_of_issues_other "field" "year") by reflexivity.
        reflexivity.
  - pose proof (externalReferenceSchema_cases raw) as C.
    unfold handleSubmitExternal.
    destruct (External.externalReferenceSchema raw) as [values|errors].
    + exfalso. destruct C as [Cn [Cf _]].
      destruct H as [H|H]; rewrite H in *; discriminate.
    + split; [|reflexivity]. exists errors. split; [reflexivity|].
      subst errors. split; intro E; rewrite E.
      * reflexivity.
      * rewrite !error_of_app.
        rewrite (error_of_issues_other "field" "name") by reflexivity.
        rewrite (error_of_issues_other "field" "year") by reflexivity.
        reflexivity.
Qed.

Lemma C8_witness :
  handleSubmitPersonal (accepting (Some a_session) (fun _ => None))
                       Personal.defaultValues = []
  /\ handleSubmitExternal (accepting (Some a_session) (fun _ => None))
       (External.mkRaw (Some "Ref") None None None (Some "") None
                       (Some "https://a.com")) = [].
Proof.
  split.
  - apply (proj1 (C8_validation_floor (accepting (Some a_session) (fun _ => None)))
                 Personal.defaultValues).
    left. reflexivity.
  - apply (proj2 (C8_validation_floor (accepting (Some a_session) (fun _ => None)))
                 (External.mkRaw (Some "Ref") None None None (Some "") None
                                 (Some "https://a.com"))).
    right. reflexivity.
Defined.

(** C9. A Personal submission never looks up the session and never
    inserts a link row; when the values are valid, the only call to a
    collaborator is the one [addProject]. *)
Theorem C9_personal_no_identity (b : Backend) (raw : Personal.RawValues) :
  let t := handleSubmitPersonal b raw in
  ~ In EvGetSession t
  /\ createLink_calls t = []
  /\ (forall values,
         Personal.personalProjectSchema raw = Zod.Success values ->
         gateway_calls t
         = [EvAddProject (Personal.name values)
                         (JS.trim (Personal.description values))]).
Proof.
  intro t. subst t. unfold handleSubmitPersonal.
  destruct (Personal.personalProjectSchema raw) as [values|errors].
  - rewrite run_onSubmitPersonal.
    destruct (addProject_reply b _ _); repeat split;
      try (simpl; intuition discriminate);
      intros v H; injection H as <-; reflexivity.
  - repeat split; [intros []|]. intros v H. discriminate H.
Qed.

Lemma C9_witness :
  gateway_calls (handleSubmitPersonal (rejecting "down")
                                      (poster None None (Some "https://a.com")))
  = [EvAddProject "Poster"
       ("Field: Print" ++ LF ++ "Year: 2022" ++ LF
        ++ "External Links: https://a.com")].
Proof.
  exact (proj2 (proj2 (C9_personal_no_identity
                         (rejecting "down")
                         (poster None None (Some "https://a.com"))))
               (Personal.mkValues "Poster" None (Some 2022%Z) None "Print"
                                  None (Some "https://a.com"))
               eq_refl).
Defined.

(** C10. The length check counts whitespace: any name and field that
    are not empty pass validation in both variants, also when the name,
    the field or both are made only of whitespace (a single space, for
    one), and the submission goes on to call [addProject] with that
    name. *)
Theorem C10_whitespace_name_accepted (b : Backend) (name field : string) :
  name <> "" ->
  field <> "" ->
  (forall month year duration coAuthors links,
      year_ok year = true ->
      let raw := Personal.mkRaw (Some name) month year duration (Some field)
                                coAuthors links in
      let values := Personal.mkValues name month (year_value year) duration
                                      field coAuthors links in
      Personal.personalProjectSchema raw = Zod.Success values
      /\ exists rest,
           handleSubmitPersonal b raw
           = EvAddProject name (JS.trim (Personal.description values)) :: rest)
  /\ (forall month year duration authors links,
         year_ok year = true ->
         links <> "" ->
         let raw := External.mkRaw (Some name) month year duration (Some field)
                                   authors (Some links) in
         let values := External.mkValues name month (year_value year) duration
                                         field authors links in
         External.externalReferenceSchema raw = Zod.Success values
         /\ exists rest,
              handleSubmitExternal b raw
              = EvAddProject name (JS.trim (External.description values)) :: rest).
Proof.
  intros Hn Hf. split.
  - intros month year duration coAuthors links Hy raw values.
    assert (S : Personal.personalProjectSchema raw = Zod.Success values).
    { unfold Personal.personalProjectSchema, raw, values.
      cbn [Personal.raw_name Personal.raw_month Personal.raw_year
           Personal.raw_duration Personal.raw_field Personal.raw_coAuthors
           Personal.raw_externalLinks].
      now rewrite !string_min_1_nonempty, parse_year_ok. }
    split; [exact S|].
    unfold handleSubmitPersonal. rewrite S, run_onSubmitPersonal.
    eexists. reflexivity.
  - intros month year duration authors links Hy Hl raw values.
    assert (S : External.externalReferenceSchema raw = Zod.Success values).
    { unfold External.externalReferenceSchema, raw, values.
      cbn [External.raw_name External.raw_month External.raw_year
           External.raw_duration External.raw_field External.raw_authors
           External.raw_externalLinks].
      now rewrite !string_min_1_nonempty, parse_year_ok. }
    split; [exact S|].
    unfold handleSubmitExternal. rewrite S, run_onSubmitExternal.
    eexists. reflexivity.
Qed.

Lemma C10_witness :
  (Personal.personalProjectSchema
     (Personal.mkRaw (Some " ") None None (Some "") (Some "Print") (Some "")
                     (Some ""))
   = Zod.Success
       (Personal.mkValues " " None None (Some "") "Print" (Some "") (Some ""))
   /\ exists rest,
        handleSubmitPersonal all_succeed
          (Personal.mkRaw (Some " ") None None (Some "") (Some "Print") (Some "")
                          (Some ""))
        = EvAddProject " " "Field: Print" :: rest)
  /\ Personal.personalProjectSchema
       (Personal.mkRaw (Some "Poster") None None (Some "") (Some " ") (Some "")
                       (Some ""))
     = Zod.Success
         (Personal.mkValues "Poster" None None (Some "") " " (Some "") (Some ""))
  /\ External.externalReferenceSchema
       (External.mkRaw (Some " ") None (Some (JS.Num 2023)) None (Some " ") None
                       (Some "https://a.com"))
     = Zod.Success
         (External.mkValues " " None (Some 2023%Z) None " " None "https://a.com").
Proof.
  assert (H : " " <> "") by discriminate.
  assert (P : "Print" <> "") by discriminate.
  assert (N : "Poster" <> "") by discriminate.
  assert (L : "https://a.com" <> "") by discriminate.
  split; [|split].
  - exact (proj1 (C10_whitespace_name_accepted all_succeed " " "Print" H P)
                 None None (Some "") (Some "") (Some "") eq_refl).
  - exact (proj1 (proj1 (C10_whitespace_name_accepted all_succeed "Poster" " " N H)
                        None None (Some "") (Some "") (Some "") eq_refl)).
  - exact (proj1 (proj2 (C10_whitespace_name_accepted all_succeed " " " " H H)
                        None (Some (JS.Num 2023)) None None "https://a.com"
                        eq_refl L)).
Defined.

(* ================================================================= *)
(** ** Further properties: the year input *)

Lemma append_empty_r (s : string) : s ++ "" = s.
Proof. induction s as [|c s IH]; [reflexivity|]. simpl. now rewrite IH. Qed.

Ltac eval_digit :=
  match goal with
  | |- context [JS.digit_value 10 ?c] =>
      let v := eval vm_compute in (JS.digit_value 10 c) in
      change (JS.digit_value 10 c) with v; cbv iota beta
  end.

Lemma parse_digits_stop (tail : string) (acc : Z) :
  stops_digits tail -> JS.parse_digits 10 tail acc true = Some acc.
Proof. destruct tail as [|c tail]; simpl; [reflexivity|]. now intros ->. Qed.

Lemma parse_digits_uint_acc (tail : string) (d : Decimal.uint) :
  stops_digits tail ->
  forall acc : positive,
    JS.parse_digits 10 (NilEmpty.string_of_uint d ++ tail) (Zpos acc) true
    = Some (Zpos (Pos.of_uint_acc d acc)).
Proof.
  intro Ht.
  induction d as [|d IH|d IH|d IH|d IH|d IH|d IH|d IH|d IH|d IH|d IH];
    intro acc;
    cbn [NilEmpty.string_of_uint append JS.parse_digits Pos.of_uint_acc];
    [now apply parse_digits_stop|..];
    eval_digit; rewrite <- IH; f_equal; lia.
Qed.

Lemma parse_digits_uint (tail : string) (d : Decimal.uint) :
  stops_digits tail ->
  JS.parse_digits 10 (NilEmpty.string_of_uint d ++ tail) 0 true
  = Some (Z.of_N (Pos.of_uint d)).
Proof.
  intro Ht.
  induction d as [|d IH|d IH|d IH|d IH|d IH|d IH|d IH|d IH|d IH|d IH];
    cbn [NilEmpty.string_of_uint append JS.parse_digits Pos.of_uint];
    [now apply parse_digits_stop| eval_digit; exact IH |..];
    eval_digit;
    match goal with
    | |- JS.parse_digits 10 _ ?a true = _ =>
        let v := eval vm_compute in a in change a with v
    end;
    now rewrite parse_digits_uint_acc.
Qed.

(** [parseInt] on decimal digits followed by something that is not a
    digit: the digits are read, the rest is ignored. *)
Lemma parseInt_uint (tail : string) (d : Decimal.uint) :
  d <> Decimal.Nil ->
  stops_digits tail -> not_hex_marker tail ->
  JS.parseInt (NilEmpty.string_of_uint d ++ tail)
  = JS.Num (Z.of_N (Pos.of_uint d))
  /\ JS.parseInt (String "-" (NilEmpty.string_of_uint d ++ tail))
     = JS.Num (- Z.of_N (Pos.of_uint d)).
Proof.
  intros Hd Ht Hx.
  assert (P : JS.strip_prefix (NilEmpty.string_of_uint d ++ tail)
              = (10%Z, NilEmpty.string_of_uint d ++ tail)).
  { destruct d as [|d|d|d|d|d|d|d|d|d|d]; [congruence|..];
      destruct d; try reflexivity;
      (destruct tail as [|c tail]; [reflexivity|]); try reflexivity.
    destruct Hx as [H1 H2].
    cbn [NilEmpty.string_of_uint append JS.strip_prefix].
    apply Ascii.eqb_neq in H1. apply Ascii.eqb_neq in H2.
    now rewrite H1, H2. }
  assert (F : JS.parse_digits 10 (NilEmpty.string_of_uint d ++ tail) 0 false
              = Some (Z.of_N (Pos.of_uint d))).
  { rewrite <- (parse_digits_uint tail d Ht).
    destruct d; [congruence|..]; reflexivity. }
  split.
  - assert (S : JS.strip_sign (JS.trimStart (NilEmpty.string_of_uint d ++ tail))
                = (1%Z, NilEmpty.string_of_uint d ++ tail)).
    { destruct d; [congruence|..]; reflexivity. }
    unfold JS.parseInt. rewrite S, P, F. f_equal; lia.
  - unfold JS.parseInt.
    change (JS.strip_sign (JS.trimStart (String "-" ?s))) with ((-1)%Z, s).
    cbv iota beta. rewrite P, F. f_equal; lia.
Qed.

Lemma to_uint_not_Nil (p : positive) : Pos.to_uint p <> Decimal.Nil.
Proof.
  intro H. pose proof (DecimalPos.Unsigned.of_to p) as E.
  rewrite H in E. discriminate E.
Qed.

(** [parseInt] reads back the decimal text of an integer, whatever
    non-digit text follows it. *)
Lemma parseInt_number_to_string (tail : string) (z : Z) :
  stops_digits tail -> not_hex_marker tail ->
  JS.parseInt (JS.number_to_string z ++ tail) = JS.Num z.
Proof.
  intros Ht Hx. destruct z as [|p|p].
  - apply (parseInt_uint tail (Decimal.D0 Decimal.Nil)); [discriminate|assumption..].
  - unfold JS.number_to_string. cbn [Z.to_int NilZero.string_of_int].
    pose proof (to_uint_not_Nil p) as Hn.
    replace (NilZero.string_of_uint (Pos.to_uint p))
      with (NilEmpty.string_of_uint (Pos.to_uint p))
      by (destruct (Pos.to_uint p); [congruence|..]; reflexivity).
    rewrite (proj1 (parseInt_uint tail _ Hn Ht Hx)).
    now rewrite DecimalPos.Unsigned.of_to.
  - unfold JS.number_to_string. cbn [Z.to_int NilZero.string_of_int].
    pose proof (to_uint_not_Nil p) as Hn.
    replace (NilZero.string_of_uint (Pos.to_uint p))
      with (NilEmpty.string_of_uint (Pos.to_uint p))
      by (destruct (Pos.to_uint p); [congruence|..]; reflexivity).
    cbn [append].
    rewrite (proj2 (parseInt_uint tail _ Hn Ht Hx)).
    now rewrite DecimalPos.Unsigned.of_to.
Qed.

Lemma truthy_number_to_string (tail : string) (z : Z) :
  JS.truthy (JS.number_to_string z ++ tail) = true.
Proof.
  destruct z as [|p|p]; [reflexivity| |reflexivity].
  unfold JS.number_to_string. cbn [Z.to_int NilZero.string_of_int].
  pose proof (to_uint_not_Nil p) as Hn.
  destruct (Pos.to_uint p); [congruence|..]; reflexivity.
Qed.

(* ================================================================= *)
(** ** Further properties: the schemas as a whole *)

(** [personalProjectSchema] in one equation. *)
Lemma personalProjectSchema_eq (raw : Personal.RawValues) :
  Personal.personalProjectSchema raw
  = match Zod.string_min 1 "Project name is required" (Personal.raw_name raw),
          Zod.number_min_max_optional 1900 2100 (Personal.raw_year raw),
          Zod.string_min 1 "Field is required" (Personal.raw_field raw) with
    | inl n, inl y, inl f =>
        Zod.Success (Personal.mkValues n (Personal.raw_month raw) y
                       (Personal.raw_duration raw) f
                       (Personal.raw_coAuthors raw)
                       (Personal.raw_externalLinks raw))
    | pn, py, pf =>
        Zod.Failure (Zod.issues "name" pn ++ Zod.issues "year" py
                     ++ Zod.issues "field" pf)%list
    end.
Proof.
  destruct raw as [n m y d f c l].
  unfold Personal.personalProjectSchema.
  cbn [Personal.raw_name Personal.raw_month Personal.raw_year
       Personal.raw_duration Personal.raw_field Personal.raw_coAuthors
       Personal.raw_externalLinks].
  unfold Zod.string_optional, Zod.date_optional.
  destruct (Zod.string_min 1 "Project name is required" n),
           (Zod.number_min_max_optional 1900 2100 y),
           (Zod.string_min 1 "Field is required" f);
    cbn [Zod.issues app]; rewrite ?app_nil_r; reflexivity.
Qed.

(** [externalReferenceSchema] in one equation. *)
Lemma externalReferenceSchema_eq (raw : External.RawValues) :
  External.externalReferenceSchema raw
  = match Zod.string_min 1 "Reference name is required" (External.raw_name raw),
          Zod.number_min_max_optional 1900 2100 (External.raw_year raw),
          Zod.string_min 1 "Field is required" (External.raw_field raw),
          Zod.string_min 1 "At least one external link is required"
                         (External.raw_externalLinks raw) with
    | inl n, inl y, inl f, inl l =>
        Zod.Success (External.mkValues n (External.raw_month raw) y
                       (External.raw_duration raw) f
                       (External.raw_authors raw) l)
    | pn, py, pf, pl =>
        Zod.Failure (Zod.issues "name" pn ++ Zod.issues "year" py
                     ++ Zod.issues "field" pf
                     ++ Zod.issues "externalLinks" pl)%list
    end.
Proof.
  destruct raw as [n m y d f a l].
  unfold External.externalReferenceSchema.
  cbn [External.raw_name External.raw_month External.raw_year
       External.raw_duration External.raw_field External.raw_authors
       External.raw_externalLinks].
  unfold Zod.string_optional, Zod.date_optional.
  destruct (Zod.string_min 1 "Reference name is required" n),
           (Zod.number_min_max_optional 1900 2100 y),
           (Zod.string_min 1 "Field is required" f),
           (Zod.string_min 1 "At least one external link is required" l);
    cbn [Zod.issues app]; rewrite ?app_nil_r; reflexivity.
Qed.

(** What [.min(1)] answers, by whether the raw value is a non-empty
    string. *)
Lemma string_min_1_cases (message : string) (v : option string) :
  match Zod.string_min 1 message v with
  | inl s => v = Some s /\ s <> "" /\ filled v = true
  | inr l => filled v = false
             /\ (l = [Required] /\ v = None
                 \/ l = [Message message] /\ v = Some "")
  end.
Proof.
  destruct v as [[|c s]|]; simpl; intuition congruence.
Qed.

(** What the year check answers, by [year_ok]. *)
Lemma number_min_max_cases (y : option JS.number) :
  match Zod.number_min_max_optional 1900 2100 y with
  | inl v => year_ok y = true /\ v = year_value y
  | inr l => year_ok y = false /\ l <> []
  end.
Proof.
  destruct y as [[|z]|]; simpl; try (split; [reflexivity|discriminate]);
    try (split; reflexivity).
  destruct (Z.ltb_spec z 1900), (Z.ltb_spec 2100 z); simpl;
    try (split; [|discriminate]);
    try (split; [|reflexivity]);
    rewrite ?andb_true_iff, ?andb_false_iff, ?Z.leb_le, ?Z.leb_gt; lia.
Qed.

Lemma error_of_issues {A : Type} (path other : string) (p : Parsed A) :
  error_of path (Zod.issues other p)
  = if String.eqb other path
    then match p with inl _ => None | inr l => hd_error l end
    else None.
Proof.
  destruct (String.eqb other path) eqn:E.
  - destruct p as [a|[|i l]]; try reflexivity. simpl. now rewrite E.
  - now apply error_of_issues_other.
Qed.

(** What a failed [personalProjectSchema] reports for each field. *)
Lemma personal_failure_errors (raw : Personal.RawValues) (errors : FieldErrors) :
  Personal.personalProjectSchema raw = Zod.Failure errors ->
  forall path,
    error_of path errors
    = if String.eqb "name" path then
        match Zod.string_min 1 "Project name is required" (Personal.raw_name raw) with
        | inl _ => None | inr l => hd_error l end
      else if String.eqb "year" path then
        match Zod.number_min_max_optional 1900 2100 (Personal.raw_year raw) with
        | inl _ => None | inr l => hd_error l end
      else if String.eqb "field" path then
        match Zod.string_min 1 "Field is required" (Personal.raw_field raw) with
        | inl _ => None | inr l => hd_error l end
      else None.
Proof.
  intros H path. rewrite personalProjectSchema_eq in H.
  assert (E : errors
     = (Zod.issues "name" (Zod.string_min 1 "Project name is required" (Personal.raw_name raw))
        ++ Zod.issues "year" (Zod.number_min_max_optional 1900 2100 (Personal.raw_year raw))
        ++ Zod.issues "field" (Zod.string_min 1 "Field is required" (Personal.raw_field raw)))%list).
  { destruct (Zod.string_min 1 "Project name is required" (Personal.raw_name raw)),
             (Zod.number_min_max_optional 1900 2100 (Personal.raw_year raw)),
             (Zod.string_min 1 "Field is required" (Personal.raw_field raw));
      try discriminate H; now injection H as <-. }
  rewrite E, !error_of_app, !error_of_issues.
  destruct (String.eqb "name" path) eqn:En.
  - apply String.eqb_eq in En. subst path. cbn [String.eqb Ascii.eqb Bool.eqb].
    now destruct (Zod.string_min 1 _ (Personal.raw_name raw)) as [?|[|? ?]].
  - destruct (String.eqb "year" path) eqn:Ey.
    + apply String.eqb_eq in Ey. subst path. cbn [String.eqb Ascii.eqb Bool.eqb].
      now destruct (Zod.number_min_max_optional 1900 2100 _) as [?|[|? ?]].
    + now destruct (String.eqb "field" path).
Qed.

(** What a failed [externalReferenceSchema] reports for each field. *)
Lemma external_failure_errors (raw : External.RawValues) (errors : FieldErrors) :
  External.externalReferenceSchema raw = Zod.Failure errors ->
  forall path,
    error_of path errors
    = if String.eqb "name" path then
        match Zod.string_min 1 "Reference name is required" (External.raw_name raw) with
        | inl _ => None | inr l => hd_error l end
      else if String.eqb "year" path then
        match Zod.number_min_max_optional 1900 2100 (External.raw_year raw) with
        | inl _ => None | inr l => hd_error l end
      else if String.eqb "field" path then
        match Zod.string_min 1 "Field is required" (External.raw_field raw) with
        | inl _ => None | inr l => hd_error l end
      else if String.eqb "externalLinks" path then
        match Zod.string_min 1 "At least one external link is required"
                             (External.raw_externalLinks raw) with
        | inl _ => None | inr l => hd_error l end
      else None.
Proof.
  intros H path. rewrite externalReferenceSchema_eq in H.
  assert (E : errors
     = (Zod.issues "name" (Zod.string_min 1 "Reference name is required" (External.raw_name raw))
        ++ Zod.issues "year" (Zod.number_min_max_optional 1900 2100 (External.raw_year raw))
        ++ Zod.issues "field" (Zod.string_min 1 "Field is required" (External.raw_field raw))
        ++ Zod.issues "externalLinks"
             (Zod.string_min 1 "At least one external link is required"
                             (External.raw_externalLinks raw)))%list).
  { destruct (Zod.string_min 1 "Reference name is required" (External.raw_name raw)),
             (Zod.number_min_max_optional 1900 2100 (External.raw_year raw)),
             (Zod.string_min 1 "Field is required" (External.raw_field raw)),
             (Zod.string_min 1 "At least one external link is required"
                             (External.raw_externalLinks raw));
      try discriminate H; now injection H as <-. }
  rewrite E, !error_of_app, !error_of_issues.
  destruct (String.eqb "name" path) eqn:En.
  - apply String.eqb_eq in En. subst path. cbn [String.eqb Ascii.eqb Bool.eqb].
    now destruct (Zod.string_min 1 _ (External.raw_name raw)) as [?|[|? ?]].
  - destruct (String.eqb "year" path) eqn:Ey.
    + apply String.eqb_eq in Ey. subst path. cbn [String.eqb Ascii.eqb Bool.eqb].
      now destruct (Zod.number_min_max_optional 1900 2100 _) as [?|[|? ?]].
    + destruct (String.eqb "field" path) eqn:Ef.
      * apply String.eqb_eq in Ef. subst path. cbn [String.eqb Ascii.eqb Bool.eqb].
        now destruct (Zod.string_min 1 _ (External.raw_field raw)) as [?|[|? ?]].
      * now destruct (String.eqb "externalLinks" path).
Qed.



(** X2. A year input whose text starts with a character that is
    neither whitespace, a sign nor a decimal digit (".5", "abc") gives
    [NaN]; both schemas then fail with a not-a-number issue on "year"
    and the submit handler is not run. *)
Theorem year_input_not_a_number (b : Backend) (c : ascii) (rest : string) :
  JS.is_whitespace c = false ->
  c <> "-"%char -> c <> "+"%char ->
  JS.digit_value 10 c = None ->
  yearOnChange (String c rest) = Some JS.NaN
  /\ (forall raw,
         Personal.raw_year raw = yearOnChange (String c rest) ->
         (exists errors,
             Personal.personalProjectSchema raw = Zod.Failure errors
             /\ error_of "year" errors = Some NotANumber)
         /\ handleSubmitPersonal b raw = [])
  /\ (forall raw,
         External.raw_year raw = yearOnChange (String c rest) ->
         (exists errors,
             External.externalReferenceSchema raw = Zod.Failure errors
             /\ error_of "year" errors = Some NotANumber)
         /\ handleSubmitExternal b raw = []).
Proof.
  intros Hw Hm Hp Hd.
  assert (Y : yearOnChange (String c rest) = Some JS.NaN).
  { unfold yearOnChange, JS.parseInt. cbn [JS.truthy JS.trimStart].
    rewrite Hw. cbn [JS.strip_sign].
    apply Ascii.eqb_neq in Hm. apply Ascii.eqb_neq in Hp. rewrite Hm, Hp.
    assert (H0 : Ascii.eqb c "0" = false).
    { apply Ascii.eqb_neq. intros ->. discriminate Hd. }
    assert (P : JS.strip_prefix (String c rest) = (10%Z, String c rest)).
    { destruct rest as [|x rest]; [reflexivity|].
      cbn [JS.strip_prefix]. now rewrite H0. }
    rewrite P. cbn [JS.parse_digits]. now rewrite Hd. }
  split; [exact Y|]. rewrite Y. split; intros raw Hy.
  - destruct (Personal.personalProjectSchema raw) as [values|errors] eqn:S.
    + exfalso. rewrite personalProjectSchema_eq, Hy in S.
      cbn [Zod.number_min_max_optional] in S.
      destruct (Zod.string_min 1 _ (Personal.raw_name raw)); discriminate S.
    + split.
      * exists errors. split; [reflexivity|].
        rewrite (personal_failure_errors raw errors S "year"), Hy. reflexivity.
      * unfold handleSubmitPersonal. now rewrite S.
  - destruct (External.externalReferenceSchema raw) as [values|errors] eqn:S.
    + exfalso. rewrite externalReferenceSchema_eq, Hy in S.
      cbn [Zod.number_min_max_optional] in S.
      destruct (Zod.string_min 1 _ (External.raw_name raw)); discriminate S.
    + split.
      * exists errors. split; [reflexivity|].
        rewrite (external_failure_errors raw errors S "year"), Hy. reflexivity.
      * unfold handleSubmitExternal. now rewrite S.
Qed.

Lemma year_input_not_a_number_witness :
  yearOnChange ".5" = Some JS.NaN
  /\ handleSubmitPersonal all_succeed
       (Personal.mkRaw (Some "Poster") None (yearOnChange ".5") None
                       (Some "Print") None None) = [].
Proof.
  assert (M : "."%char <> "-"%char) by discriminate.
  assert (P : "."%char <> "+"%char) by discriminate.
  pose proof (year_input_not_a_number all_succeed "." "5" eq_refl M P eq_refl)
    as [Y [H _]].
  split; [exact Y|].
  exact (proj2 (H (Personal.mkRaw (Some "Poster") None (yearOnChange ".5") None
                                  (Some "Print") None None) eq_refl)).
Defined.

(** X3. Typing the decimal text of a year from 1900 to 2100 gives
    values that pass both schemas with exactly that year, and leaving
    the year input empty gives values that pass with no year (not with
    year 0), provided name and field (and, for External, the links) are
    not empty. *)
Theorem typed_year_accepted (z : Z) (name field links : string) :
  (1900 <= z <= 2100)%Z ->
  name <> "" -> field <> "" -> links <> "" ->
  (forall month duration coAuthors externalLinks,
      Personal.personalProjectSchema
        (Personal.mkRaw (Some name) month (yearOnChange (JS.number_to_string z))
                        duration (Some field) coAuthors externalLinks)
      = Zod.Success (Personal.mkValues name month (Some z) duration field
                                       coAuthors externalLinks)
      /\ Personal.personalProjectSchema
           (Personal.mkRaw (Some name) month (yearOnChange "")
                           duration (Some field) coAuthors externalLinks)
         = Zod.Success (Personal.mkValues name month None duration field
                                          coAuthors externalLinks))
  /\ (forall month duration authors,
         External.externalReferenceSchema
           (External.mkRaw (Some name) month (yearOnChange (JS.number_to_string z))
                           duration (Some field) authors (Some links))
         = Zod.Success (External.mkValues name month (Some z) duration field
                                          authors links)
         /\ External.externalReferenceSchema
              (External.mkRaw (Some name) month (yearOnChange "")
                              duration (Some field) authors (Some links))
            = Zod.Success (External.mkValues name month None duration field
                                             authors links)).
Proof.
  intros Hz Hn Hf Hl.
  assert (Y : yearOnChange (JS.number_to_string z) = Some (JS.Num z)).
  { rewrite <- (append_empty_r (JS.number_to_string z)).
    unfold yearOnChange.
    now rewrite truthy_number_to_string, parseInt_number_to_string. }
  assert (K : year_ok (Some (JS.Num z)) = true).
  { simpl. apply andb_true_iff. rewrite !Z.leb_le. lia. }
  rewrite Y. change (yearOnChange "") with (@None JS.number).
  split; intros; split;
    rewrite ?personalProjectSchema_eq, ?externalReferenceSchema_eq;
    cbn [Personal.raw_name Personal.raw_month Personal.raw_year
         Personal.raw_duration Personal.raw_field Personal.raw_coAuthors
         Personal.raw_externalLinks
         External.raw_name External.raw_month External.raw_year
         External.raw_duration External.raw_field External.raw_authors
         External.raw_externalLinks];
    rewrite !string_min_1_nonempty by assumption;
    try rewrite (parse_year_ok _ K); reflexivity.
Qed.

Lemma typed_year_accepted_witness :
  Personal.personalProjectSchema
    (Personal.mkRaw (Some "Poster") None (yearOnChange "2022") (Some "")
                    (Some "Print") (Some "") (Some ""))
  = Zod.Success (Personal.mkValues "Poster" None (Some 2022%Z) (Some "") "Print"
                                   (Some "") (Some "")).
Proof.
  assert (P : "Poster" <> "") by discriminate.
  assert (F : "Print" <> "") by discriminate.
  assert (L : "https://a.com" <> "") by discriminate.
  assert (R : (1900 <= 2022 <= 2100)%Z) by lia.
  exact (proj1 (proj1 (typed_year_accepted 2022 "Poster" "Print" "https://a.com"
                                           R P F L)
                      None (Some "") (Some "") (Some ""))).
Defined.

(** X4. [personalProjectSchema] accepts raw values exactly when name
    and field are non-empty strings and the year, if any, is a number
    from 1900 to 2100; the validated values are the raw ones,
    unchanged. *)
Theorem personal_validation_exact (raw : Personal.RawValues) :
  ((exists values, Personal.personalProjectSchema raw = Zod.Success values)
   <-> filled (Personal.raw_name raw) = true
       /\ filled (Personal.raw_field raw) = true
       /\ year_ok (Personal.raw_year raw) = true)
  /\ (forall values,
         Personal.personalProjectSchema raw = Zod.Success values ->
         Personal.raw_name raw = Some (Personal.name values)
         /\ Personal.raw_month raw = Personal.month values
         /\ year_value (Personal.raw_year raw) = Personal.year values
         /\ Personal.raw_duration raw = Personal.duration values
         /\ Personal.raw_field raw = Some (Personal.field values)
         /\ Personal.raw_coAuthors raw = Personal.coAuthors values
         /\ Personal.raw_externalLinks raw = Personal.externalLinks values).
Proof.
  rewrite personalProjectSchema_eq.
  pose proof (string_min_1_cases "Project name is required" (Personal.raw_name raw)) as Cn.
  pose proof (string_min_1_cases "Field is required" (Personal.raw_field raw)) as Cf.
  pose proof (number_min_max_cases (Personal.raw_year raw)) as Cy.
  destruct (Zod.string_min 1 "Project name is required" (Personal.raw_name raw)) as [n|ln],
           (Zod.number_min_max_optional 1900 2100 (Personal.raw_year raw)) as [y|ly],
           (Zod.string_min 1 "Field is required" (Personal.raw_field raw)) as [f|lf];
    (split; [split|]);
    try (intros [values H]; discriminate H);
    try (intros values H; discriminate H);
    try (intros (Hn & Hf & Hy); exfalso;
         repeat match goal with H : _ /\ _ |- _ => destruct H end; congruence).
  - intros _. repeat match goal with H : _ /\ _ |- _ => destruct H end. auto.
  - intros _. eexists. reflexivity.
  - intros values H. injection H as <-.
    repeat match goal with H : _ /\ _ |- _ => destruct H end.
    cbn [Personal.name Personal.month Personal.year Personal.duration
         Personal.field Personal.coAuthors Personal.externalLinks].
    repeat split; congruence.
Qed.

Lemma personal_validation_exact_witness :
  exists values,
    Personal.personalProjectSchema (poster (Some "3 months") None None)
    = Zod.Success values.
Proof.
  apply (proj1 (personal_validation_exact (poster (Some "3 months") None None))).
  repeat split.
Defined.

(** X5. [externalReferenceSchema] accepts raw values exactly when name,
    field and externalLinks are non-empty strings and the year, if any,
    is a number from 1900 to 2100; the validated values are the raw
    ones, unchanged. *)
Theorem external_validation_exact (raw : External.RawValues) :
  ((exists values, External.externalReferenceSchema raw = Zod.Success values)
   <-> filled (External.raw_name raw) = true
       /\ filled (External.raw_field raw) = true
       /\ filled (External.raw_externalLinks raw) = true
       /\ year_ok (External.raw_year raw) = true)
  /\ (forall values,
         External.externalReferenceSchema raw = Zod.Success values ->
         External.raw_name raw = Some (External.name values)
         /\ External.raw_month raw = External.month values
         /\ year_value (External.raw_year raw) = External.year values
         /\ External.raw_duration raw = External.duration values
         /\ External.raw_field raw = Some (External.field values)
         /\ External.raw_authors raw = External.authors values
         /\ External.raw_externalLinks raw = Some (External.externalLinks values)).
Proof.
  rewrite externalReferenceSchema_eq.
  pose proof (string_min_1_cases "Reference name is required" (External.raw_name raw)) as Cn.
  pose proof (string_min_1_cases "Field is required" (External.raw_field raw)) as Cf.
  pose proof (string_min_1_cases "At least one external link is required"
                                 (External.raw_externalLinks raw)) as Cl.
  pose proof (number_min_max_cases (External.raw_year raw)) as Cy.
  destruct (Zod.string_min 1 "Reference name is required" (External.raw_name raw)) as [n|ln],
           (Zod.number_min_max_optional 1900 2100 (External.raw_year raw)) as [y|ly],
           (Zod.string_min 1 "Field is required" (External.raw_field raw)) as [f|lf],
           (Zod.string_min 1 "At least one external link is required"
                           (External.raw_externalLinks raw)) as [l|ll];
    (split; [split|]);
    try (intros [values H]; discriminate H);
    try (intros values H; discriminate H);
    try (intros (Hn & Hf & Hl & Hy); exfalso;
         repeat match goal with H : _ /\ _ |- _ => destruct H end; congruence).
  - intros _. repeat match goal with H : _ /\ _ |- _ => destruct H end. auto.
  - intros _. eexists. reflexivity.
  - intros values H. injection H as <-.
    repeat match goal with H : _ /\ _ |- _ => destruct H end.
    cbn [External.name External.month External.year External.duration
         External.field External.authors External.externalLinks].
    repeat split; congruence.
Qed.

Lemma external_validation_exact_witness :
  exists values,
    External.externalReferenceSchema blank_links = Zod.Success values.
Proof.
  apply (proj1 (external_validation_exact blank_links)).
  repeat split.
Defined.

(** X6. A year below 1900 or above 2100 fails both schemas with the
    issue of the bound it breaks on "year", and the submit handler is
    not run. *)
Theorem year_out_of_range_rejected (b : Backend) (z : Z) :
  (z < 1900 \/ 2100 < z)%Z ->
  let issue := if Z.ltb z 1900 then TooSmall 1900 else TooBig 2100 in
  (forall raw,
      Personal.raw_year raw = Some (JS.Num z) ->
      (exists errors,
          Personal.personalProjectSchema raw = Zod.Failure errors
          /\ error_of "year" errors = Some issue)
      /\ handleSubmitPersonal b raw = [])
  /\ (forall raw,
         External.raw_year raw = Some (JS.Num z) ->
         (exists errors,
             External.externalReferenceSchema raw = Zod.Failure errors
             /\ error_of "year" errors = Some issue)
         /\ handleSubmitExternal b raw = []).
Proof.
  intros Hz issue.
  assert (Y : Zod.number_min_max_optional 1900 2100 (Some (JS.Num z))
              = inr [issue]).
  { unfold issue. cbn [Zod.number_min_max_optional].
    destruct (Z.ltb_spec z 1900), (Z.ltb_spec 2100 z); try reflexivity; lia. }
  split; intros raw Hy.
  - destruct (Personal.personalProjectSchema raw) as [values|errors] eqn:S.
    + exfalso. rewrite personalProjectSchema_eq, Hy, Y in S.
      destruct (Zod.string_min 1 _ (Personal.raw_name raw)); discriminate S.
    + split.
      * exists errors. split; [reflexivity|].
        rewrite (personal_failure_errors raw errors S "year"), Hy, Y. reflexivity.
      * unfold handleSubmitPersonal. now rewrite S.
  - destruct (External.externalReferenceSchema raw) as [values|errors] eqn:S.
    + exfalso. rewrite externalReferenceSchema_eq, Hy, Y in S.
      destruct (Zod.string_min 1 _ (External.raw_name raw)); discriminate S.
    + split.
      * exists errors. split; [reflexivity|].
        rewrite (external_failure_errors raw errors S "year"), Hy, Y. reflexivity.
      * unfold handleSubmitExternal. now rewrite S.
Qed.

Lemma year_out_of_range_rejected_witness :
  handleSubmitPersonal all_succeed
    (Personal.mkRaw (Some "Poster") None (Some (JS.Num 1899)) None
                    (Some "Print") None None) = []
  /\ handleSubmitExternal all_succeed
       (External.mkRaw (Some "Ref") None (Some (JS.Num 2101)) None
                       (Some "Typography") None (Some "https://a.com")) = [].
Proof.
  split.
  - assert (R : (1899 < 1900 \/ 2100 < 1899)%Z) by (left; lia).
    exact (proj2 (proj1 (year_out_of_range_rejected all_succeed 1899 R)
                        (Personal.mkRaw (Some "Poster") None (Some (JS.Num 1899))
                                        None (Some "Print") None None)
                        eq_refl)).
  - assert (R : (2101 < 1900 \/ 2100 < 2101)%Z) by (right; lia).
    exact (proj2 (proj2 (year_out_of_range_rejected all_succeed 2101 R)
                        (External.mkRaw (Some "Ref") None (Some (JS.Num 2101)) None
                                        (Some "Typography") None
                                        (Some "https://a.com"))
                        eq_refl)).
Defined.

(** X7. A failed validation reports every invalid field and nothing
    else: in both variants a field has an error exactly when that field
    itself is invalid, whatever the other fields are, and fields without
    a constraint (month, duration, authors, and the Personal links)
    never have one. *)
Theorem failure_reports_exactly_invalid_fields :
  (forall raw errors,
      Personal.personalProjectSchema raw = Zod.Failure errors ->
      (error_of "name" errors = None <-> filled (Personal.raw_name raw) = true)
      /\ (error_of "field" errors = None <-> filled (Personal.raw_field raw) = true)
      /\ (error_of "year" errors = None <-> year_ok (Personal.raw_year raw) = true)
      /\ (forall path,
             path <> "name" -> path <> "field" -> path <> "year" ->
             error_of path errors = None))
  /\ (forall raw errors,
         External.externalReferenceSchema raw = Zod.Failure errors ->
         (error_of "name" errors = None <-> filled (External.raw_name raw) = true)
         /\ (error_of "field" errors = None <-> filled (External.raw_field raw) = true)
         /\ (error_of "externalLinks" errors = None
             <-> filled (External.raw_externalLinks raw) = true)
         /\ (error_of "year" errors = None <-> year_ok (External.raw_year raw) = true)
         /\ (forall path,
                path <> "name" -> path <> "field" -> path <> "year" ->
                path <> "externalLinks" ->
                error_of path errors = None)).
Proof.
  assert (Smin : forall message v,
             match Zod.string_min 1 message v with
             | inl _ => None
             | inr l => hd_error l
             end = None <-> filled v = true).
  { intros message v. pose proof (string_min_1_cases message v) as C.
    destruct (Zod.string_min 1 message v) as [s|l].
    - tauto.
    - destruct C as [F [[-> _]|[-> _]]]; rewrite F; simpl;
        split; intro; discriminate. }
  assert (Ymin : forall y,
             match Zod.number_min_max_optional 1900 2100 y with
             | inl _ => None
             | inr l => hd_error l
             end = None <-> year_ok y = true).
  { intro y. pose proof (number_min_max_cases y) as C.
    destruct (Zod.number_min_max_optional 1900 2100 y) as [v|[|i l]].
    - tauto.
    - now destruct C.
    - destruct C as [-> _]. simpl. split; intro; discriminate. }
  split; intros raw errors H.
  - pose proof (personal_failure_errors raw errors H) as E.
    rewrite (E "name"), (E "field"), (E "year").
    change (String.eqb "name" "name") with true.
    change (String.eqb "name" "field") with false.
    change (String.eqb "year" "field") with false.
    change (String.eqb "field" "field") with true.
    change (String.eqb "name" "year") with false.
    change (String.eqb "year" "year") with true.
    cbv iota.
    repeat split; try apply Smin; try apply Ymin.
    intros path Hn Hf Hy. rewrite (E path).
    apply not_eq_sym in Hn, Hf, Hy.
    apply String.eqb_neq in Hn, Hf, Hy. now rewrite Hn, Hf, Hy.
  - pose proof (external_failure_errors raw errors H) as E.
    rewrite (E "name"), (E "field"), (E "year"), (E "externalLinks").
    change (String.eqb "name" "name") with true.
    change (String.eqb "name" "field") with false.
    change (String.eqb "year" "field") with false.
    change (String.eqb "field" "field") with true.
    change (String.eqb "name" "year") with false.
    change (String.eqb "year" "year") with true.
    change (String.eqb "name" "externalLinks") with false.
    change (String.eqb "year" "externalLinks") with false.
    change (String.eqb "field" "externalLinks") with false.
    change (String.eqb "externalLinks" "externalLinks") with true.
    cbv iota.
    repeat split; try apply Smin; try apply Ymin.
    intros path Hn Hf Hy Hl. rewrite (E path).
    apply not_eq_sym in Hn, Hf, Hy, Hl.
    apply String.eqb_neq in Hn, Hf, Hy, Hl. now rewrite Hn, Hf, Hy, Hl.
Qed.

Lemma failure_reports_exactly_invalid_fields_witness :
  error_of "field"
    [("name", Message "Reference name is required");
     ("externalLinks", Message "At least one external link is required")]
  = None.
Proof.
  apply (proj2 (proj1 (proj2 (proj2 failure_reports_exactly_invalid_fields
           (External.mkRaw (Some "") None None (Some "") (Some "Typography")
                           (Some "") (Some ""))
           [("name", Message "Reference name is required");
            ("externalLinks", Message "At least one external link is required")]
           eq_refl)))).
  reflexivity.
Defined.

(* ================================================================= *)
(** ** Further properties: the submit handlers *)

Lemma addProject_calls_link_events (b : Backend) (project_name user_id : string)
      (links : list string) :
  forall i, addProject_calls (link_events b project_name user_id i links) = []
            /\ getSession_calls (link_events b project_name user_id i links) = 0.
Proof.
  induction links as [|url rest IH]; intro i; [now split|].
  simpl. destruct (JS.truthy url); [|apply IH].
  destruct (insert_reply b i url project_name user_id); simpl; apply IH.
Qed.

Lemma addProject_calls_app (t1 t2 : list Event) :
  addProject_calls (t1 ++ t2)%list
  = (addProject_calls t1 ++ addProject_calls t2)%list.
Proof.
  induction t1 as [|e t1 IH]; [reflexivity|].
  destruct e; simpl; now rewrite ?IH.
Qed.

Lemma getSession_calls_app (t1 t2 : list Event) :
  getSession_calls (t1 ++ t2)%list = getSession_calls t1 + getSession_calls t2.
Proof.
  induction t1 as [|e t1 IH]; [reflexivity|].
  destruct e; simpl; now rewrite ?IH.
Qed.

(** The rows inserted by [onSubmitExternal], in all cases. *)
Lemma createLink_calls_run (b : Backend) (values : External.FormValues) :
  createLink_calls (run (onSubmitExternal b values))
  = match addProject_reply b (External.name values)
                           (JS.trim (External.description values)),
          getSession_reply b with
    | None, Some session =>
        map (fun url => (url, External.name values, id (user session)))
            (candidateUrls (External.externalLinks values))
    | _, _ => []
    end.
Proof.
  rewrite run_onSubmitExternal.
  destruct (addProject_reply b _ _); [reflexivity|].
  destruct (getSession_reply b) as [session|]; [|reflexivity].
  cbn [createLink_calls]. rewrite createLink_calls_app.
  cbn [createLink_calls]. rewrite app_nil_r, link_events_filter.
  apply createLink_calls_link_events, truthy_filter.
Qed.

(** X8. A Personal submission closes the dialog and resets the form
    exactly when [addProject] succeeded.  When it rejects, the handler
    logs the error, shows "Failed to create project" and leaves the
    dialog open with the form as it was. *)
Theorem personal_closes_iff_created (b : Backend) (values : Personal.FormValues) :
  let name := Personal.name values in
  let description := JS.trim (Personal.description values) in
  let t := run (onSubmitPersonal b values) in
  (In (EvSetOpen false) t <-> addProject_reply b name description = None)
  /\ (In EvPersonalFormReset t <-> addProject_reply b name description = None)
  /\ (In (EvToastSuccess "Project created successfully!") t
      <-> addProject_reply b name description = None)
  /\ (forall error,
         addProject_reply b name description = Some error ->
         t = [EvAddProject name description;
              EvConsoleError "Error creating project:" error;
              EvToastError "Failed to create project"]).
Proof.
  intros name description t. subst t. rewrite run_onSubmitPersonal.
  fold name description.
  destruct (addProject_reply b name description) as [e|];
    repeat split; try (intros; simpl in *; intuition congruence).
Qed.

Lemma personal_closes_iff_created_witness :
  run (onSubmitPersonal (rejecting "down")
         (Personal.mkValues "Poster" None (Some 2022%Z) None "Print" None None))
  = [EvAddProject "Poster" ("Field: Print" ++ LF ++ "Year: 2022");
     EvConsoleError "Error creating project:" "down";
     EvToastError "Failed to create project"].
Proof.
  exact (proj2 (proj2 (proj2 (personal_closes_iff_created (rejecting "down")
           (Personal.mkValues "Poster" None (Some 2022%Z) None "Print" None None))))
           "down" eq_refl).
Defined.

(** X9. An External submission reports success, closes the dialog and
    resets the form exactly when the project was created and a session
    exists, whatever the inserts answer, even when every one of them
    fails. *)
Theorem external_closes_iff_project_and_session
        (b : Backend) (values : External.FormValues) :
  let t := run (onSubmitExternal b values) in
  let reached :=
    addProject_reply b (External.name values)
                     (JS.trim (External.description values)) = None
    /\ exists session, getSession_reply b = Some session in
  (In (EvSetOpen false) t <-> reached)
  /\ (In EvExternalFormReset t <-> reached)
  /\ (In (EvToastSuccess "External reference created successfully!") t
      <-> reached).
Proof.
  intros t reached. subst t reached. rewrite run_onSubmitExternal.
  destruct (addProject_reply b _ _) as [e|].
  - split; [|split]; (split; intro H; [exfalso|now destruct H]);
      simpl in H; intuition discriminate.
  - destruct (getSession_reply b) as [session|].
    + split; [|split];
        (split; intro H;
         [split; [reflexivity|now exists session]
         |right; right; apply in_or_app; right; simpl; auto]).
    + split; [|split];
        (split; intro H; [exfalso|now destruct H as [_ [s H]]]);
        simpl in H; intuition discriminate.
Qed.

Lemma external_closes_iff_project_and_session_witness :
  In (EvSetOpen false) (run (onSubmitExternal all_fail three_links)).
Proof.
  apply (proj1 (external_closes_iff_project_and_session all_fail three_links)).
  split; [reflexivity|]. exists a_session. reflexivity.
Defined.

(** X10. Each handler calls [addProject] exactly once per run, with the
    name and the trimmed description, and never retries.  The External
    handler looks the session up once when the project was created and
    not at all otherwise. *)
Theorem one_addProject_call (b : Backend) :
  (forall values,
      addProject_calls (run (onSubmitPersonal b values))
      = [(Personal.name values, JS.trim (Personal.description values))])
  /\ (forall values,
         addProject_calls (run (onSubmitExternal b values))
         = [(External.name values, JS.trim (External.description values))]
         /\ getSession_calls (run (onSubmitExternal b values))
            = match addProject_reply b (External.name values)
                                     (JS.trim (External.description values)) with
              | None => 1
              | Some _ => 0
              end).
Proof.
  split; intro values.
  - rewrite run_onSubmitPersonal. now destruct (addProject_reply b _ _).
  - rewrite run_onSubmitExternal.
    destruct (addProject_reply b _ _); [now split|].
    destruct (getSession_reply b) as [session|]; [|now split].
    cbn [addProject_calls getSession_calls].
    rewrite addProject_calls_app, getSession_calls_app.
    destruct (addProject_calls_link_events b (External.name values)
                (id (user session)) (map JS.trim (JS.split "," (External.externalLinks values))) 0)
      as [-> ->].
    now split.
Qed.

(** X11. Every row the External handler inserts has a URL that is not
    empty, neither starts nor ends with whitespace and has no comma: it
    is one of the comma-separated tokens of externalLinks without the
    whitespace around it.  The row carries the submitted name as project
    name and the id of the looked-up session as user id. *)
Theorem insert_rows_well_formed (b : Backend) (values : External.FormValues)
        (url project_name user_id : string) :
  In (url, project_name, user_id)
     (createLink_calls (run (onSubmitExternal b values))) ->
  url <> ""
  /\ starts_with_whitespace url = false
  /\ ends_with_whitespace url = false
  /\ occurs "," url = false
  /\ (exists token,
         In token (JS.split "," (External.externalLinks values))
         /\ is_trim_of token url)
  /\ In url (candidateUrls (External.externalLinks values))
  /\ project_name = External.name values
  /\ exists session,
       getSession_reply b = Some session /\ user_id = id (user session).
Proof.
  rewrite createLink_calls_run.
  destruct (addProject_reply b _ _); [intros []|].
  destruct (getSession_reply b) as [session|]; [|intros []].
  intro H. apply in_map_iff in H as [u [E H]].
  injection E as <- <- <-.
  destruct (candidateUrls_well_formed _ _ H) as (A & B & C & D & T).
  repeat split; try assumption. now exists session.
Qed.

Lemma insert_rows_well_formed_witness :
  exists token,
    In token (JS.split "," (External.externalLinks spaced_links))
    /\ is_trim_of token "https://a.com".
Proof.
  assert (H : In ("https://a.com", "Ref", "u-1")
                 (createLink_calls (run (onSubmitExternal all_succeed spaced_links)))).
  { left. reflexivity. }
  pose proof (insert_rows_well_formed all_succeed spaced_links _ _ _ H)
    as (_ & _ & _ & _ & T & _).
  exact T.
Defined.

Lemma addProject_calls_personal (b : Backend) (values : Personal.FormValues) :
  addProject_calls (run (onSubmitPersonal b values))
  = [(Personal.name values, JS.trim (Personal.description values))].
Proof. rewrite run_onSubmitPersonal. now destruct (addProject_reply b _ _). Qed.

Lemma addProject_calls_external (b : Backend) (values : External.FormValues) :
  addProject_calls (run (onSubmitExternal b values))
  = [(External.name values, JS.trim (External.description values))].
Proof.
  rewrite run_onSubmitExternal.
  destruct (addProject_reply b _ _); [reflexivity|].
  destruct (getSession_reply b) as [session|]; [|reflexivity].
  cbn [addProject_calls]. rewrite addProject_calls_app.
  now destruct (addProject_calls_link_events b (External.name values)
                  (id (user session))
                  (map JS.trim (JS.split "," (External.externalLinks values))) 0)
    as [-> _].
Qed.

(** The External description starts with its tag. *)
Lemma external_description_prefix (values : External.FormValues) :
  exists rest,
    JS.trim (External.description values) = "External Reference" ++ rest.
Proof.
  assert (D : exists tail,
             External.description values = "External Reference" ++ tail).
  { destruct values as [n m y d f a l]. unfold External.description.
    cbn [External.field External.month External.year External.duration
         External.authors].
    destruct (JS.truthy f), m as [m|], y as [z|], (JS.truthy_opt d),
             (JS.truthy_opt a);
      try destruct (JS.truthy_num (Some z));
      eexists; cbn [append]; rewrite <- ?append_assoc; reflexivity. }
  destruct D as [tail ->]. unfold JS.trim.
  change (JS.trimStart ("External Reference" ++ tail))
    with ("External Reference" ++ tail).
  apply trimEnd_keeps_prefix; [discriminate|reflexivity].
Qed.

(** The Personal description starts with the field line when the field
    is not empty. *)
Lemma personal_description_prefix (values : Personal.FormValues) :
  Personal.field values <> "" ->
  exists rest, JS.trim (Personal.description values) = "Field:" ++ rest.
Proof.
  intro Hf.
  assert (D : exists tail, Personal.description values = "Field:" ++ tail).
  { destruct values as [n m y d f c l]. unfold Personal.description.
    cbn [Personal.field Personal.month Personal.year Personal.duration
         Personal.coAuthors Personal.externalLinks] in *.
    destruct f as [|c0 f]; [congruence|]. cbn [JS.truthy].
    destruct m as [m|], y as [z|], (JS.truthy_opt d), (JS.truthy_opt c),
             (JS.truthy_opt l);
      try destruct (JS.truthy_num (Some z));
      eexists; cbn [append]; rewrite <- ?append_assoc; reflexivity. }
  destruct D as [tail ->]. unfold JS.trim.
  change (JS.trimStart ("Field:" ++ tail)) with ("Field:" ++ tail).
  apply trimEnd_keeps_prefix; [discriminate|reflexivity].
Qed.

(** X12. The description a handler passes to [addProject] never starts
    or ends with whitespace: in particular it has no trailing line
    feed, although every line is built with one. *)
Theorem submitted_description_is_trimmed (b : Backend) :
  (forall values name description,
      In (name, description) (addProject_calls (run (onSubmitPersonal b values))) ->
      starts_with_whitespace description = false
      /\ ends_with_whitespace description = false)
  /\ (forall values name description,
         In (name, description) (addProject_calls (run (onSubmitExternal b values))) ->
         starts_with_whitespace description = false
         /\ ends_with_whitespace description = false).
Proof.
  split; intros values name description H.
  - rewrite addProject_calls_personal in H. destruct H as [E|[]].
    injection E as _ <-. split; apply trim_trimmed.
  - rewrite addProject_calls_external in H. destruct H as [E|[]].
    injection E as _ <-. split; apply trim_trimmed.
Qed.

Lemma submitted_description_is_trimmed_witness :
  ends_with_whitespace (JS.trim (External.description typography)) = false.
Proof.
  apply (proj2 (submitted_description_is_trimmed all_succeed)
               typography "Ref" (JS.trim (External.description typography))).
  left. reflexivity.
Defined.

(** X13. Whatever the form holds, a project is created only with the
    name that was entered, which is then not empty, and with a
    description that starts with "Field:" (Personal) or with "External
    Reference" (External). *)
Theorem submitted_project_is_validated (b : Backend) :
  (forall raw name description,
      In (name, description) (addProject_calls (handleSubmitPersonal b raw)) ->
      name <> "" /\ Personal.raw_name raw = Some name
      /\ exists rest, description = "Field:" ++ rest)
  /\ (forall raw name description,
         In (name, description) (addProject_calls (handleSubmitExternal b raw)) ->
         name <> "" /\ External.raw_name raw = Some name
         /\ exists rest, description = "External Reference" ++ rest).
Proof.
  split; intros raw name description H.
  - unfold handleSubmitPersonal in H.
    pose proof (personalProjectSchema_cases raw) as C.
    destruct (Personal.personalProjectSchema raw) as [values|errors]; [|destruct H].
    rewrite addProject_calls_personal in H. destruct H as [E|[]].
    injection E as <- <-. destruct C as [Cn Cf].
    pose proof (string_min_1_cases "Project name is required" (Personal.raw_name raw)) as Sn.
    pose proof (string_min_1_cases "Field is required" (Personal.raw_field raw)) as Sf.
    rewrite Cn in Sn. rewrite Cf in Sf.
    destruct Sn as (Sn1 & Sn2 & _). destruct Sf as (_ & Sf2 & _).
    repeat split; try assumption.
    now apply personal_description_prefix.
  - unfold handleSubmitExternal in H.
    pose proof (externalReferenceSchema_cases raw) as C.
    destruct (External.externalReferenceSchema raw) as [values|errors]; [|destruct H].
    rewrite addProject_calls_external in H. destruct H as [E|[]].
    injection E as <- <-. destruct C as [Cn _].
    pose proof (string_min_1_cases "Reference name is required" (External.raw_name raw)) as Sn.
    rewrite Cn in Sn. destruct Sn as (Sn1 & Sn2 & _).
    repeat split; try assumption.
    apply external_description_prefix.
Qed.

Lemma submitted_project_is_validated_witness :
  exists rest, "External Reference" ++ LF ++ "Field: Typography"
               = "External Reference" ++ rest.
Proof.
  apply (proj2 (submitted_project_is_validated all_succeed) blank_links "Ref").
  left. reflexivity.
Defined.

(** X14. Links joined by a comma are handled one after the other: the
    candidates of [s,t] are those of [s] followed by those of [t], and
    so are the inserted rows.  Nothing is merged or deduplicated. *)
Theorem links_compose_over_comma (s t : string) :
  candidateUrls (s ++ "," ++ t) = (candidateUrls s ++ candidateUrls t)%list
  /\ (forall b name month year duration field authors,
         let submit links :=
           createLink_calls
             (run (onSubmitExternal b
                (External.mkValues name month year duration field authors links))) in
         submit (s ++ "," ++ t) = (submit s ++ submit t)%list).
Proof.
  assert (C : candidateUrls (s ++ "," ++ t)
              = (candidateUrls s ++ candidateUrls t)%list).
  { unfold candidateUrls. change ("," ++ t) with (String "," t).
    now rewrite split_app, map_app, filter_app. }
  split; [exact C|].
  intros b name month year duration field authors submit. subst submit.
  cbv beta. rewrite !createLink_calls_run.
  cbn [External.name External.externalLinks].
  change (External.description (External.mkValues name month year duration field
                                                  authors (s ++ "," ++ t)))
    with (External.description (External.mkValues name month year duration field
                                                  authors s)).
  change (External.description (External.mkValues name month year duration field
                                                  authors t))
    with (External.description (External.mkValues name month year duration field
                                                  authors s)).
  destruct (addProject_reply b _ _); [reflexivity|].
  destruct (getSession_reply b); [|reflexivity].
  now rewrite C, map_app.
Qed.

(** X15. When the project was created and a session exists, no row is
    inserted exactly when externalLinks is made of commas and
    whitespace only; the handler then still reports success and closes
    the dialog. *)
Theorem no_link_iff_commas_and_whitespace
        (b : Backend) (values : External.FormValues) (session : Session) :
  let name := External.name values in
  let description := JS.trim (External.description values) in
  addProject_reply b name description = None ->
  getSession_reply b = Some session ->
  (createLink_calls (run (onSubmitExternal b values)) = []
   <-> commas_and_whitespace_only (External.externalLinks values) = true)
  /\ (commas_and_whitespace_only (External.externalLinks values) = true ->
      run (onSubmitExternal b values)
      = [EvAddProject name description; EvGetSession;
         EvToastSuccess "External reference created successfully!";
         EvSetOpen false; EvExternalFormReset]).
Proof.
  intros name description Hadd Hsession. split.
  - rewrite createLink_calls_run. fold name description.
    rewrite Hadd, Hsession, <- candidateUrls_nil.
    split; [apply map_eq_nil|now intros ->].
  - intro H. apply candidateUrls_nil in H.
    rewrite run_onSubmitExternal. fold name description.
    rewrite Hadd, Hsession, link_events_filter.
    fold (candidateUrls (External.externalLinks values)). now rewrite H.
Qed.

Lemma no_link_iff_commas_and_whitespace_witness :
  run (onSubmitExternal all_succeed
         (External.mkValues "Ref" None None None "Typography" None " , ,, "))
  = [EvAddProject "Ref" ("External Reference" ++ LF ++ "Field: Typography");
     EvGetSession;
     EvToastSuccess "External reference created successfully!";
     EvSetOpen false; EvExternalFormReset].
Proof.
  exact (proj2 (no_link_iff_commas_and_whitespace all_succeed
                  (External.mkValues "Ref" None None None "Typography" None " , ,, ")
                  a_session eq_refl eq_refl)
               eq_refl).
Defined.

(** X16. The External handler inserts at most one row more than there
    are commas in externalLinks. *)
Theorem inserts_bounded_by_commas (b : Backend) (values : External.FormValues) :
  List.length (createLink_calls (run (onSubmitExternal b values)))
  <= S (count_char "," (External.externalLinks values)).
Proof.
  rewrite createLink_calls_run.
  destruct (addProject_reply b _ _); [simpl; lia|].
  destruct (getSession_reply b); [|simpl; lia].
  rewrite length_map. unfold candidateUrls.
  rewrite <- (length_split "," (External.externalLinks values)).
  rewrite <- (length_map JS.trim (JS.split "," (External.externalLinks values))).
  generalize (map JS.trim (JS.split "," (External.externalLinks values))).
  induction l as [|x l IH]; [simpl; lia|].
  simpl. destruct (JS.truthy x); simpl; lia.
Qed.

(** X17. An optional text field left empty is rendered like an absent
    one: the description is the same whether duration, authors,
    co-authors or the Personal links are the empty string or
    undefined. *)
Theorem empty_optional_fields_are_absent :
  (forall name month year duration field coAuthors links,
      Personal.description
        (Personal.mkValues name month year duration field coAuthors links)
      = Personal.description
          (Personal.mkValues name month year (absent_if_empty duration) field
                             (absent_if_empty coAuthors) (absent_if_empty links)))
  /\ (forall name month year duration field authors links,
         External.description
           (External.mkValues name month year duration field authors links)
         = External.description
             (External.mkValues name month year (absent_if_empty duration) field
                                (absent_if_empty authors) links)).
Proof.
  split.
  - intros name month year [[|? ?]|] field [[|? ?]|] [[|? ?]|]; reflexivity.
  - intros name month year [[|? ?]|] field [[|? ?]|] links; reflexivity.
Qed.
